(** * Clutch consent form: a shallow embedding of the form component

    The repository holds one React component, [ClutchConsentForm], in two
    versions: the typed one (src/unnamed/part_000) and the untyped one
    (src/app/components/ClutchConsentForm.tsx).  Both are embedded below,
    each in a module of its own ([Typed] and [Untyped]), over a common
    model of JavaScript strings, of [JSON.parse] and of the three regular
    expressions the component uses. *)

From Stdlib Require Import List NArith ZArith Bool String Ascii DecimalString Lia.
Import ListNotations.

Local Open Scope N_scope.

(** ** JavaScript strings

    A JavaScript string is a sequence of UTF-16 code units; [length] counts
    code units and [===] compares them one by one. *)

Definition jsstring := list N.

Definition str (s : string) : jsstring :=
  map N_of_ascii (list_ascii_of_string s).

Fixpoint streq (a b : jsstring) : bool :=
  match a, b with
  | [], [] => true
  | x :: a', y :: b' => (x =? y) && streq a' b'
  | _, _ => false
  end.

Fixpoint dropWhile {A} (p : A -> bool) (l : list A) : list A :=
  match l with
  | [] => []
  | x :: t => if p x then dropWhile p t else l
  end.

Fixpoint startsWith (p s : jsstring) : bool :=
  match p, s with
  | [], _ => true
  | x :: p', y :: s' => (x =? y) && startsWith p' s'
  | _ :: _, [] => false
  end.

(** White space as the regular expression class [\s] and
    [String.prototype.trim] see it: TAB, LF, VT, FF, CR, SP, NBSP, the
    Unicode space separators, LS, PS and the byte order mark. *)
Definition isWhiteSpace (c : N) : bool :=
  match c with
  | 9 | 10 | 11 | 12 | 13 | 32 | 160 | 5760
  | 8232 | 8233 | 8239 | 8287 | 12288 | 65279 => true
  | _ => (8192 <=? c) && (c <=? 8202)
  end.

Definition trimStart (s : jsstring) : jsstring := dropWhile isWhiteSpace s.
Definition trimEnd (s : jsstring) : jsstring :=
  rev (dropWhile isWhiteSpace (rev s)).

(** [s.trim()] *)
Definition trim (s : jsstring) : jsstring := trimEnd (trimStart s).

(** [s.replace(/\s+/g, '_')]: every maximal run of white space becomes one
    underscore.  [inRun] tells that the previous code unit was white space
    and its underscore is already written. *)
Fixpoint replaceWhitespaceRuns (inRun : bool) (s : jsstring) : jsstring :=
  match s with
  | [] => []
  | c :: t =>
      if isWhiteSpace c
      then (if inRun then replaceWhitespaceRuns true t
            else 95 :: replaceWhitespaceRuns true t)
      else c :: replaceWhitespaceRuns false t
  end.

Definition fenceJson : jsstring := str "```json".
Definition fence : jsstring := str "```".

(** [s.replace(/```json|```/g, '')]: scanning from the left, a fence marker
    is dropped wherever one starts, the longer alternative first.  [skip]
    counts the code units of a marker that are still to be dropped. *)
Fixpoint stripFences (skip : nat) (s : jsstring) : jsstring :=
  match s with
  | [] => []
  | c :: t =>
      match skip with
      | S k => stripFences k t
      | O =>
          if startsWith fenceJson s then stripFences 6 t
          else if startsWith fence s then stripFences 2 t
          else c :: stripFences 0 t
      end
  end.

Definition isNot (c : N) (x : N) : bool := negb (x =? c).

(** [s.match(/\{[\s\S]*\}/)]: the match starts at the first opening brace
    and, the star being greedy over every code unit, ends at the last
    closing brace after it; there is no match when no closing brace follows
    the first opening one (a later start would have none either). *)
Definition matchBraces (s : jsstring) : option jsstring :=
  match dropWhile (isNot 123) s with
  | [] => None
  | open :: rest =>
      match dropWhile (isNot 125) (rev rest) with
      | [] => None
      | revBody => Some (open :: rev revBody)
      end
  end.

(** [parts.join(sep)] *)
Fixpoint join (sep : jsstring) (parts : list jsstring) : jsstring :=
  match parts with
  | [] => []
  | [p] => p
  | p :: rest => p ++ sep ++ join sep rest
  end.

(** [s.split(',')], as a current part and the parts after it *)
Fixpoint splitComma (s : jsstring) : jsstring * list jsstring :=
  match s with
  | [] => ([], [])
  | c :: t =>
      let (cur, rest) := splitComma t in
      if c =? 44 then ([], cur :: rest) else (c :: cur, rest)
  end.

Definition split_comma (s : jsstring) : list jsstring :=
  let (cur, rest) := splitComma s in cur :: rest.

(** ** JSON values and [JSON.parse] *)

(** A number is kept as the decimal the text wrote, [m * 10^e]. *)
#[local] Set Warnings "-register-all".
Inductive JSON : Type :=
| JNull
| JBool (b : bool)
| JNumber (m e : Z)
| JString (s : jsstring)
| JArray (elems : list JSON)
| JObject (members : list (jsstring * JSON)).

Inductive token : Type :=
| TLBrace | TRBrace | TLBracket | TRBracket | TColon | TComma
| TStr (s : jsstring)
| TNum (m e : Z)
| TTrue | TFalse | TNull.

Definition isDigit (c : N) : bool := (48 <=? c) && (c <=? 57).

Definition hexValue (c : N) : option N :=
  if isDigit c then Some (c - 48)
  else if (97 <=? c) && (c <=? 102) then Some (c - 87)
  else if (65 <=? c) && (c <=? 70) then Some (c - 55)
  else None.

Definition hex4 (a b c d : N) : option N :=
  match hexValue a, hexValue b, hexValue c, hexValue d with
  | Some x, Some y, Some z, Some w => Some (((x * 16 + y) * 16 + z) * 16 + w)
  | _, _, _, _ => None
  end.

(** The single-character escapes of a JSON string *)
Definition escapeChar (c : N) : option N :=
  match c with
  | 34 => Some 34   (* quote *)
  | 92 => Some 92   (* backslash *)
  | 47 => Some 47   (* slash *)
  | 98 => Some 8    (* b: backspace *)
  | 102 => Some 12  (* f: form feed *)
  | 110 => Some 10  (* n: line feed *)
  | 114 => Some 13  (* r: carriage return *)
  | 116 => Some 9   (* t: tab *)
  | _ => None
  end.

Definition consChar (c : N) (extra : nat) (r : option (jsstring * nat))
  : option (jsstring * nat) :=
  match r with
  | Some (s, n) => Some (c :: s, (extra + n)%nat)
  | None => None
  end.

(** The text after an opening quote: the string it denotes and the number
    of code units read, the closing quote included. *)
Fixpoint lexString (s : jsstring) : option (jsstring * nat) :=
  match s with
  | [] => None
  | c :: t =>
      if c =? 34 then Some ([], 1%nat)
      else if c =? 92 then
        match t with
        | [] => None
        | e :: t' =>
            if e =? 117 then
              match t' with
              | h1 :: h2 :: h3 :: h4 :: t'' =>
                  match hex4 h1 h2 h3 h4 with
                  | Some u => consChar u 6 (lexString t'')
                  | None => None
                  end
              | _ => None
              end
            else
              match escapeChar e with
              | Some x => consChar x 2 (lexString t')
              | None => None
              end
        end
      else if c <? 32 then None
      else consChar c 1 (lexString t)
  end.

Fixpoint spanDigits (s : jsstring) : list N * jsstring :=
  match s with
  | [] => ([], [])
  | c :: t =>
      if isDigit c then let (ds, rest) := spanDigits t in (c :: ds, rest)
      else ([], s)
  end.

Definition digitsValue (ds : list N) : Z :=
  fold_left (fun acc d => (10 * acc + Z.of_N (d - 48))%Z) ds 0%Z.

(** A number, from its first code unit: mantissa, decimal exponent and the
    number of code units read.  The grammar: an optional minus sign; a
    single zero, or a non-zero digit and more digits; optionally a point
    and one digit or more; optionally e or E, a sign and one digit or
    more. *)
Definition lexNumber (s : jsstring) : option (Z * Z * nat) :=
  let (neg, s1) := match s with
                   | 45 :: t => (true, t)
                   | _ => (false, s)
                   end in
  let (ip, s2) := match s1 with
                  | 48 :: t => ([48], t)
                  | _ => spanDigits s1
                  end in
  match ip with
  | [] => None
  | _ :: _ =>
      let frac := match s2 with
                  | 46 :: t =>
                      let (fp, s3) := spanDigits t in
                      match fp with
                      | [] => None
                      | _ :: _ => Some (fp, s3)
                      end
                  | _ => Some ([], s2)
                  end in
      match frac with
      | None => None
      | Some (fp, s3) =>
          let expo :=
            match s3 with
            | 101 :: t | 69 :: t =>
                let (eneg, t') := match t with
                                  | 43 :: u => (false, u)
                                  | 45 :: u => (true, u)
                                  | _ => (false, t)
                                  end in
                let (ep, s4) := spanDigits t' in
                match ep with
                | [] => None
                | _ :: _ =>
                    Some ((if eneg then - digitsValue ep
                           else digitsValue ep)%Z, s4)
                end
            | _ => Some (0%Z, s3)
            end in
          match expo with
          | None => None
          | Some (ex, s4) =>
              let mant := digitsValue (ip ++ fp) in
              Some ((if neg then - mant else mant)%Z,
                    (ex - Z.of_nat (List.length fp))%Z,
                    (List.length s - List.length s4)%nat)
          end
      end
  end.

(** JSON white space: space, TAB, LF, CR *)
Definition isJSONSpace (c : N) : bool :=
  match c with
  | 32 | 9 | 10 | 13 => true
  | _ => false
  end.

Definition consTok (t : token) (r : option (list token)) : option (list token) :=
  match r with
  | Some ts => Some (t :: ts)
  | None => None
  end.

(** The tokens of a text.  [skip] counts the code units of the current
    token that are still to be passed over. *)
Fixpoint lex (skip : nat) (s : jsstring) : option (list token) :=
  match s with
  | [] => Some []
  | c :: t =>
      match skip with
      | S k => lex k t
      | O =>
          if isJSONSpace c then lex 0 t
          else if c =? 123 then consTok TLBrace (lex 0 t)
          else if c =? 125 then consTok TRBrace (lex 0 t)
          else if c =? 91 then consTok TLBracket (lex 0 t)
          else if c =? 93 then consTok TRBracket (lex 0 t)
          else if c =? 58 then consTok TColon (lex 0 t)
          else if c =? 44 then consTok TComma (lex 0 t)
          else if c =? 34 then
            match lexString t with
            | Some (v, n) => consTok (TStr v) (lex n t)
            | None => None
            end
          else if startsWith (str "true") s then consTok TTrue (lex 3 t)
          else if startsWith (str "false") s then consTok TFalse (lex 4 t)
          else if startsWith (str "null") s then consTok TNull (lex 3 t)
          else if (c =? 45) || isDigit c then
            match lexNumber s with
            | Some (m, e, n) => consTok (TNum m e) (lex (pred n) t)
            | None => None
            end
          else None
      end
  end.

(** The parser is a stack machine over the tokens.  A frame is a container
    that is open and waits for the value being read. *)
Inductive frame : Type :=
| FArr (elems : list JSON)
| FObj (members : list (jsstring * JSON)) (key : jsstring).

Inductive pstate : Type :=
| PValue (stack : list frame)
| PArrStart (stack : list frame)
| PObjStart (stack : list frame)
| PKey (members : list (jsstring * JSON)) (stack : list frame)
| PColon (members : list (jsstring * JSON)) (key : jsstring) (stack : list frame)
| PArrNext (elems : list JSON) (stack : list frame)
| PObjNext (members : list (jsstring * JSON)) (stack : list frame)
| PDone (v : JSON).

(** A finished value goes to the innermost open container, or is the
    result.  Elements and members are kept in reverse while the container
    is open. *)
Definition deliver (v : JSON) (stack : list frame) : pstate :=
  match stack with
  | [] => PDone v
  | FArr elems :: st => PArrNext (v :: elems) st
  | FObj members key :: st => PObjNext ((key, v) :: members) st
  end.

Definition stepValue (stack : list frame) (t : token) : option pstate :=
  match t with
  | TStr s => Some (deliver (JString s) stack)
  | TNum m e => Some (deliver (JNumber m e) stack)
  | TTrue => Some (deliver (JBool true) stack)
  | TFalse => Some (deliver (JBool false) stack)
  | TNull => Some (deliver JNull stack)
  | TLBracket => Some (PArrStart stack)
  | TLBrace => Some (PObjStart stack)
  | _ => None
  end.

Definition step (st : pstate) (t : token) : option pstate :=
  match st with
  | PValue stack => stepValue stack t
  | PArrStart stack =>
      match t with
      | TRBracket => Some (deliver (JArray []) stack)
      | _ => stepValue (FArr [] :: stack) t
      end
  | PObjStart stack =>
      match t with
      | TRBrace => Some (deliver (JObject []) stack)
      | TStr k => Some (PColon [] k stack)
      | _ => None
      end
  | PKey members stack =>
      match t with
      | TStr k => Some (PColon members k stack)
      | _ => None
      end
  | PColon members k stack =>
      match t with
      | TColon => Some (PValue (FObj members k :: stack))
      | _ => None
      end
  | PArrNext elems stack =>
      match t with
      | TComma => Some (PValue (FArr elems :: stack))
      | TRBracket => Some (deliver (JArray (rev elems)) stack)
      | _ => None
      end
  | PObjNext members stack =>
      match t with
      | TComma => Some (PKey members stack)
      | TRBrace => Some (deliver (JObject (rev members)) stack)
      | _ => None
      end
  | PDone _ => None
  end.

Fixpoint run (st : pstate) (ts : list token) : option JSON :=
  match ts with
  | [] => match st with PDone v => Some v | _ => None end
  | t :: ts' =>
      match step st t with
      | Some st' => run st' ts'
      | None => None
      end
  end.

(** [JSON.parse(text)]; [None] is the [SyntaxError]. *)
Definition JSON_parse (text : jsstring) : option JSON :=
  match lex 0 text with
  | Some ts => run (PValue []) ts
  | None => None
  end.

(** [value.name] for a value that [JSON.parse] returned: [None] is
    [undefined].  Of duplicate keys the last one counts.  Reading a
    property of [null] throws, which callers check with [isNull] first;
    strings, numbers, booleans and arrays have none of the form's keys. *)
Fixpoint lookupLast (name : jsstring) (members : list (jsstring * JSON))
  : option JSON :=
  match members with
  | [] => None
  | (k, v) :: rest =>
      match lookupLast name rest with
      | Some w => Some w
      | None => if streq k name then Some v else None
      end
  end.

Definition getProp (v : JSON) (name : jsstring) : option JSON :=
  match v with
  | JObject members => lookupLast name members
  | _ => None
  end.

Definition isNull (v : JSON) : bool :=
  match v with JNull => true | _ => false end.

Definition isObject (v : JSON) : bool :=
  match v with JObject _ => true | _ => false end.

(** Truthiness of a parsed value, as [||], [&&] and [!] see it.  A number
    is falsy when it is zero as a double: a decimal [m * 10^e] is read as
    zero exactly when its magnitude is at most [2^-1075], half of the
    smallest denormal (a tie goes to the even neighbour, zero). *)
Definition readsAsZero (m e : Z) : bool :=
  ((m =? 0) || ((e <? 0) && (Z.abs m * 2 ^ 1075 <=? 10 ^ (- e))))%Z.

Definition truthy (v : JSON) : bool :=
  match v with
  | JNull => false
  | JBool b => b
  | JNumber m e => negb (readsAsZero m e)
  | JString s => match s with [] => false | _ :: _ => true end
  | JArray _ | JObject _ => true
  end.

(** ** Dates

    [new Date(text)] reads a date-only text [YYYY-MM-DD] as midnight UTC of
    that day; [getFullYear], [getMonth] and [getDate] read the time value
    back in local time, which is UTC plus the local time zone adjustment
    [tza] (milliseconds, positive east of Greenwich).  Time values are
    milliseconds since 1970-01-01T00:00Z; the day arithmetic is the one of
    the language specification. *)
Module JSDate.
Local Open Scope Z_scope.

Definition msPerDay : Z := 86400000.

Definition isLeapYear (y : Z) : bool :=
  (y mod 4 =? 0) && (negb (y mod 100 =? 0) || (y mod 400 =? 0)).

Definition DaysInYear (y : Z) : Z := if isLeapYear y then 366 else 365.

Definition DayFromYear (y : Z) : Z :=
  365 * (y - 1970) + (y - 1969) / 4 - (y - 1901) / 100 + (y - 1601) / 400.

Definition Day (t : Z) : Z := t / msPerDay.

(** The year a day falls in: the largest [y] with [DayFromYear y <= d].
    The mean year length places it within one year of the estimate. *)
Definition YearFromDay (d : Z) : Z :=
  let y0 := 1970 + (400 * d) / 146097 in
  if d <? DayFromYear y0 then y0 - 1
  else if DayFromYear (y0 + 1) <=? d then y0 + 1
  else y0.

Definition DayWithinYear (d : Z) : Z := d - DayFromYear (YearFromDay d).

Definition leapDay (d : Z) : Z :=
  if isLeapYear (YearFromDay d) then 1 else 0.

(** Days of the year before each month (January is month 0) *)
Definition daysBeforeMonth (leap : Z) (m : Z) : Z :=
  match m with
  | 0 => 0
  | 1 => 31
  | 2 => 59 + leap
  | 3 => 90 + leap
  | 4 => 120 + leap
  | 5 => 151 + leap
  | 6 => 181 + leap
  | 7 => 212 + leap
  | 8 => 243 + leap
  | 9 => 273 + leap
  | 10 => 304 + leap
  | 11 => 334 + leap
  | _ => 365 + leap
  end.

Definition MonthFromDay (d : Z) : Z :=
  let w := DayWithinYear d in
  let l := leapDay d in
  if w <? 31 then 0
  else if w <? 59 + l then 1
  else if w <? 90 + l then 2
  else if w <? 120 + l then 3
  else if w <? 151 + l then 4
  else if w <? 181 + l then 5
  else if w <? 212 + l then 6
  else if w <? 243 + l then 7
  else if w <? 273 + l then 8
  else if w <? 304 + l then 9
  else if w <? 334 + l then 10
  else 11.

Definition DateFromDay (d : Z) : Z :=
  DayWithinYear d - daysBeforeMonth (leapDay d) (MonthFromDay d) + 1.

(** [MakeDay(year, month, date)] for a month in 0..11 *)
Definition MakeDay (y m dt : Z) : Z :=
  DayFromYear y + daysBeforeMonth (if isLeapYear y then 1 else 0) m + dt - 1.

Definition daysInMonth (y m : Z) : Z :=
  let l := if isLeapYear y then 1 else 0 in
  daysBeforeMonth l (m + 1) - daysBeforeMonth l m.

Definition digit (c : N) : option Z :=
  if isDigit c then Some (Z.of_N (c - 48)) else None.

Definition number2 (a b : N) : option Z :=
  match digit a, digit b with
  | Some x, Some y => Some (10 * x + y)
  | _, _ => None
  end.

(** The year, month (1..12) and day of a date-only text [YYYY-MM-DD] that
    names a calendar day.  [None]: the text is not of that form; what
    [new Date] makes of such a text (an invalid date, or a reading of the
    engine's own) is not modelled.  The form's date input only produces
    texts of that form. *)
Definition dateFields (s : jsstring) : option (Z * Z * Z) :=
  match s with
  | [y1; y2; y3; y4; h1; m1; m2; h2; d1; d2] =>
      match number2 y1 y2, number2 y3 y4, number2 m1 m2, number2 d1 d2 with
      | Some yh, Some yl, Some m, Some d =>
          let y := 100 * yh + yl in
          if (h1 =? 45)%N && (h2 =? 45)%N
             && (1 <=? m) && (m <=? 12) && (1 <=? d) && (d <=? daysInMonth y (m - 1))
          then Some (y, m, d)
          else None
      | _, _, _, _ => None
      end
  | _ => None
  end.

(** The time value of a date-only text: midnight UTC of its day *)
Definition parseDateOnly (s : jsstring) : option Z :=
  match dateFields s with
  | Some (y, m, d) => Some (msPerDay * MakeDay y (m - 1) d)
  | None => None
  end.

Definition getFullYear (tza t : Z) : Z := YearFromDay (Day (t + tza)).
Definition getMonth (tza t : Z) : Z := MonthFromDay (Day (t + tza)).
Definition getDate (tza t : Z) : Z := DateFromDay (Day (t + tza)).

End JSDate.

(** An integer as a template literal writes it *)
Definition numberToString (z : Z) : jsstring :=
  str (DecimalString.NilZero.string_of_int (Z.to_int z)).

(** ** What the component shares between its two versions

    The records below are the component's state and the answers of the
    outside world (file reader, the two web services, the canvas), which
    the handlers take as an argument. *)

Record File : Type := { name : jsstring; type : jsstring }.

(** [FormDataState].  The five text fields are declared as strings, but the
    object that [JSON.parse] returns is cast to the payload type without a
    check, so a field holds whatever value the extraction response carried;
    [date] is only ever written by the date input. *)
Record FormDataState : Type := {
  fullName : JSON;
  address : JSON;
  year : JSON;
  makeModel : JSON;
  vin : JSON;
  date : jsstring
}.

(** [keyof FormDataState] *)
Inductive Field : Type :=
| fullName_ | address_ | year_ | makeModel_ | vin_ | date_.

(** The state of the component: its five [useState] cells *)
Record Component : Type := {
  file : option File;
  extracting : bool;
  formData : FormDataState;
  extractionComplete : bool;
  error : jsstring
}.

Definition setFile (f : option File) (c : Component) : Component :=
  {| file := f; extracting := extracting c; formData := formData c;
     extractionComplete := extractionComplete c; error := error c |}.

Definition setExtracting (b : bool) (c : Component) : Component :=
  {| file := file c; extracting := b; formData := formData c;
     extractionComplete := extractionComplete c; error := error c |}.

Definition setFormData (fd : FormDataState) (c : Component) : Component :=
  {| file := file c; extracting := extracting c; formData := fd;
     extractionComplete := extractionComplete c; error := error c |}.

Definition setExtractionComplete (b : bool) (c : Component) : Component :=
  {| file := file c; extracting := extracting c; formData := formData c;
     extractionComplete := b; error := error c |}.

Definition setError (e : jsstring) (c : Component) : Component :=
  {| file := file c; extracting := extracting c; formData := formData c;
     extractionComplete := extractionComplete c; error := e |}.

(** [{ ...prev, [field]: value }] *)
Definition setField (field : Field) (value : jsstring) (prev : FormDataState)
  : FormDataState :=
  match field with
  | fullName_ =>
      {| fullName := JString value; address := address prev; year := year prev;
         makeModel := makeModel prev; vin := vin prev; date := date prev |}
  | address_ =>
      {| fullName := fullName prev; address := JString value; year := year prev;
         makeModel := makeModel prev; vin := vin prev; date := date prev |}
  | year_ =>
      {| fullName := fullName prev; address := address prev; year := JString value;
         makeModel := makeModel prev; vin := vin prev; date := date prev |}
  | makeModel_ =>
      {| fullName := fullName prev; address := address prev; year := year prev;
         makeModel := JString value; vin := vin prev; date := date prev |}
  | vin_ =>
      {| fullName := fullName prev; address := address prev; year := year prev;
         makeModel := makeModel prev; vin := JString value; date := date prev |}
  | date_ =>
      {| fullName := fullName prev; address := address prev; year := year prev;
         makeModel := makeModel prev; vin := vin prev; date := value |}
  end.

(** The calls a handler makes to the two pipelines, in order *)
Inductive Call : Type :=
| CallExtractInformation (f : File)
| CallDecodeVIN (vin : jsstring).

(** [FileReader.readAsDataURL]: an error, or a [result] that is a string
    or not *)
Inductive ReaderOutcome : Type :=
| ReaderError
| ReaderLoaded (result : option jsstring).

(** [fetch] and then [response.json()]: the request fails, or a response
    arrives with its [ok] flag and a body that parses ([Some]) or not *)
Inductive FetchOutcome (A : Type) : Type :=
| FetchFailed
| Fetched (ok : bool) (body : option A).
Arguments FetchFailed {A}.
Arguments Fetched {A} ok body.

(** An entry of the extraction response's [content]: its [type] and
    [text], each absent or any value *)
Record ContentItem : Type := {
  item_type : option JSON;
  item_text : option JSON
}.

(** [AnthropicResponse] *)
Record AnthropicResponse : Type := { content : option (list ContentItem) }.

Record ExtractionWorld : Type := {
  reader : ReaderOutcome;
  messages : FetchOutcome AnthropicResponse
}.

(** An entry of the lookup's [Results]; [None] is [undefined] or [null],
    which [??], [||] and [===] against a string treat alike *)
Record VinItem : Type := {
  Variable_ : option jsstring;
  Value : option jsstring
}.

Record VinData : Type := { Results : option (list VinItem) }.

Definition VinWorld : Type := FetchOutcome VinData.

(** The canvas: no 2d context, a drawing call that throws an error with a
    message, [toBlob] handing over no blob, or a blob *)
Inductive CanvasOutcome : Type :=
| NoContext
| DrawingThrows (msg : jsstring)
| NoBlob
| Blob.

Definition notApplicable : jsstring := str "Not Applicable".

Definition nonEmpty (s : jsstring) : bool :=
  match s with [] => false | _ :: _ => true end.

(** [s && s !== 'Not Applicable'] *)
Definition usable (s : jsstring) : bool :=
  nonEmpty s && negb (streq s notApplicable).

Definition months : list jsstring :=
  map str ["January"; "February"; "March"; "April"; "May"; "June"; "July";
           "August"; "September"; "October"; "November"; "December"]%string.

Definition extractionFailedMessage : jsstring :=
  str "Could not extract information from this file. Please fill the form manually below.".

Definition unsupportedTypeMessage : jsstring :=
  str "Please upload a PDF or image file (JPG/PNG)".

(** The date line of the letter:
    [`${months[d.getMonth()]} ${d.getDate()}, ${d.getFullYear()}`] with
    [d = new Date(formData.date)], in a browser whose local time is [tza]
    milliseconds ahead of UTC *)
Definition formattedDate (tza : Z) (fd : FormDataState) : option jsstring :=
  match JSDate.parseDateOnly (date fd) with
  | None => None
  | Some t =>
      Some (nth (Z.to_nat (JSDate.getMonth tza t)) months (str "undefined")
            ++ str " " ++ numberToString (JSDate.getDate tza t)
            ++ str ", " ++ numberToString (JSDate.getFullYear tza t))
  end.

(** ** The typed component (src/unnamed/part_000) *)
Module Typed.

Definition allowedTypes : list jsstring :=
  map str ["application/pdf"; "image/jpeg"; "image/jpg"; "image/png"]%string.

Definition isAllowedMime (t : jsstring) : bool :=
  existsb (streq t) allowedTypes.

(** [useMemo(() => true, [])] *)
Definition extractEnabled : bool := true.

(** [fileToBase64]: the part of the data URL after the first comma;
    [None] is a rejected promise. *)
Definition fileToBase64 (r : ReaderOutcome) : option jsstring :=
  match r with
  | ReaderError => None
  | ReaderLoaded None => None
  | ReaderLoaded (Some result) =>
      match split_comma result with
      | _ :: data :: _ => Some data
      | _ => None
      end
  end.

Definition isTextItem (item : ContentItem) : option jsstring :=
  match item_type item, item_text item with
  | Some (JString t), Some (JString text) =>
      if streq t (str "text") then Some text else None
  | _, _ => None
  end.

Fixpoint textItems (items : list ContentItem) : list jsstring :=
  match items with
  | [] => []
  | item :: rest =>
      match isTextItem item with
      | Some text => text :: textItems rest
      | None => textItems rest
      end
  end.

(** [data.content?.filter(...).map(...).join('\n') ?? ''] *)
Definition textContent (data : AnthropicResponse) : jsstring :=
  match content data with
  | Some items => join [10] (textItems items)
  | None => []
  end.

(** [textContent.replace(/```json|```/g, '').trim()] *)
Definition cleanJson (text : jsstring) : jsstring :=
  trim (stripFences 0 text).

(** The [try]/[catch] around [JSON.parse]: the whole cleaned text first,
    then what the brace pattern matches in it.  [None]: an error is
    thrown on to the outer [catch]. *)
Definition parseExtracted (clean : jsstring) : option JSON :=
  match JSON_parse clean with
  | Some v => Some v
  | None =>
      match matchBraces clean with
      | None => None
      | Some m => JSON_parse m
      end
  end.

(** The [try] block of [extractInformation] up to the value of
    [extracted]; [None]: an error reached the [catch]. *)
Definition extracted (w : ExtractionWorld) : option JSON :=
  match fileToBase64 (reader w) with
  | None => None
  | Some _ =>
      match messages w with
      | FetchFailed => None
      | Fetched false _ => None
      | Fetched true None => None
      | Fetched true (Some data) =>
          let text := textContent data in
          if nonEmpty (trim text) then parseExtracted (cleanJson text)
          else None
      end
  end.

(** [a ?? b], with [a] a property read ([None] is [undefined]) *)
Definition coalesce (a : option JSON) (b : JSON) : JSON :=
  match a with
  | None | Some JNull => b
  | Some v => v
  end.

(** The updater handed to [setFormData] after an extraction.  [None]: the
    updater throws a [TypeError], reading a property of [null]. *)
Definition mergeExtracted (ex : JSON) (prev : FormDataState)
  : option FormDataState :=
  if isNull ex then None
  else Some {|
    fullName := coalesce (getProp ex (str "fullName")) (fullName prev);
    address := coalesce (getProp ex (str "address")) (address prev);
    year := coalesce (getProp ex (str "year")) (year prev);
    makeModel := coalesce (getProp ex (str "makeModel")) (makeModel prev);
    vin := coalesce (getProp ex (str "vin")) (vin prev);
    date := date prev
  |}.

(** [extractInformation].  [None]: the updater threw; React runs it while
    rendering, outside the handler's [try], and the component is gone. *)
Definition extractInformation (w : ExtractionWorld) (f : File) (st : Component)
  : option Component :=
  let st1 := setError [] (setExtracting true st) in
  match extracted w with
  | Some ex =>
      match mergeExtracted ex (formData st1) with
      | Some fd =>
          Some (setExtracting false
                  (setExtractionComplete true (setFormData fd st1)))
      | None => None
      end
  | None =>
      Some (setExtracting false (setError extractionFailedMessage st1))
  end.

(** [handleFileUpload], on the first file of the input if any: the state
    after it and the calls it made *)
Definition handleFileUpload (w : ExtractionWorld) (uploadedFile : option File)
    (st : Component) : option Component * list Call :=
  match uploadedFile with
  | None => (Some st, [])
  | Some f =>
      if negb (isAllowedMime (type f)) then
        (Some (setExtractionComplete false
                 (setFile None (setError unsupportedTypeMessage st))), [])
      else
        let st1 := setExtractionComplete false
                     (setError [] (setFile (Some f) st)) in
        if extractEnabled
        then (extractInformation w f st1, [CallExtractInformation f])
        else (Some st1, [])
  end.

(** [results.find((item) => item.Variable === variable)?.Value ?? ''] *)
Definition findValue (results : list VinItem) (variable : jsstring) : jsstring :=
  match find (fun item => match Variable_ item with
                          | Some v => streq v variable
                          | None => false
                          end) results with
  | Some item => match Value item with Some v => v | None => [] end
  | None => []
  end.

(** The value of [model] after the two fallbacks *)
Definition model (results : list VinItem) : jsstring :=
  let model := findValue results (str "Model") in
  let model := if usable model then model
               else findValue results (str "Series") in
  if usable model then model else findValue results (str "Trim").

Definition makeModelStr (results : list VinItem) : jsstring :=
  let make := findValue results (str "Make") in
  let model := model results in
  let s := if usable make then make else [] in
  if usable model
  then (if nonEmpty s then s ++ str " " ++ model else model)
  else s.

(** The updater handed to [setFormData] after a lookup *)
Definition mergeVIN (v : jsstring) (results : list VinItem) (prev : FormDataState)
  : FormDataState :=
  let mm := makeModelStr results in
  let y := findValue results (str "Model Year") in
  {| fullName := fullName prev;
     address := address prev;
     year := if usable y then JString y else year prev;
     makeModel := if nonEmpty mm then JString mm else makeModel prev;
     vin := JString v;
     date := date prev |}.

(** [decodeVIN]: a failed request, a response that is not [ok] and a body
    that does not parse all leave the state as it is.  [FetchFailed] also
    stands for [encodeURIComponent] throwing before the request is made. *)
Definition decodeVIN (w : VinWorld) (v : jsstring) (st : Component) : Component :=
  match w with
  | FetchFailed => st
  | Fetched false _ => st
  | Fetched true None => st
  | Fetched true (Some data) =>
      let results := match Results data with Some r => r | None => [] end in
      setFormData (mergeVIN v results (formData st)) st
  end.

(** [handleInputChange]: the state after it and the calls it made *)
Definition handleInputChange (w : VinWorld) (field : Field) (value : jsstring)
    (st : Component) : Component * list Call :=
  let st1 := setFormData (setField field value (formData st)) st in
  match field with
  | vin_ =>
      if (List.length value =? 17)%nat
      then (decodeVIN w value st1, [CallDecodeVIN value])
      else (st1, [])
  | _ => (st1, [])
  end.

(** The name of the download:
    [`Authorization_Letter_${fullName.trim().replace(/\s+/g, '_') || 'Customer'}.jpg`].
    [None]: [fullName] is not a string and has no [trim]. *)
Definition downloadName (fd : FormDataState) : option jsstring :=
  match fullName fd with
  | JString s =>
      let base := replaceWhitespaceRuns false (trim s) in
      Some (str "Authorization_Letter_"
            ++ (if nonEmpty base then base else str "Customer")
            ++ str ".jpg")
  | _ => None
  end.

(** [generatePDF]: the state after it and the file it downloads, if any *)
Definition generatePDF (w : CanvasOutcome) (st : Component)
  : Component * option jsstring :=
  match w with
  | NoContext =>
      (setError (str "Failed to generate image: " ++ str "Canvas not supported") st,
       None)
  | DrawingThrows msg =>
      (setError (str "Failed to generate image: " ++ msg) st, None)
  | NoBlob => (st, None)
  | Blob => (st, downloadName (formData st))
  end.

(** [disabled={!formData.fullName.trim()}] on the export button; [None]:
    rendering throws, [fullName] having no [trim]. *)
Definition exportDisabled (fd : FormDataState) : option bool :=
  match fullName fd with
  | JString s => Some (negb (nonEmpty (trim s)))
  | _ => None
  end.

(** A click on the export button: a disabled button runs no handler. *)
Definition clickExport (w : CanvasOutcome) (st : Component)
  : Component * option jsstring :=
  match exportDisabled (formData st) with
  | Some false => generatePDF w st
  | _ => (st, None)
  end.

End Typed.

(** ** The untyped component (src/app/components/ClutchConsentForm.tsx) *)
Module Untyped.

Definition validTypes : list jsstring :=
  map str ["application/pdf"; "image/jpeg"; "image/jpg"; "image/png"]%string.

(** [a || b], with [a] a property read ([None] is [undefined]) *)
Definition orElse (a : option JSON) (b : JSON) : JSON :=
  match a with
  | Some v => if truthy v then v else b
  | None => b
  end.

(** The updater handed to [setFormData] after an extraction.  [None]: the
    updater throws a [TypeError], reading a property of [null]. *)
Definition mergeExtracted (ex : JSON) (prev : FormDataState)
  : option FormDataState :=
  if isNull ex then None
  else Some {|
    fullName := orElse (getProp ex (str "fullName")) (fullName prev);
    address := orElse (getProp ex (str "address")) (address prev);
    year := orElse (getProp ex (str "year")) (year prev);
    makeModel := orElse (getProp ex (str "makeModel")) (makeModel prev);
    vin := orElse (getProp ex (str "vin")) (vin prev);
    date := date prev
  |}.

Section WithToString.

(** [join] turns the [text] of an entry into a string; what it makes of a
    value that is not a string, [null] or [undefined] is left open. *)
Variable ToString : JSON -> jsstring.

Definition textOf (item : ContentItem) : jsstring :=
  match item_text item with
  | None | Some JNull => []
  | Some (JString s) => s
  | Some v => ToString v
  end.

Definition isTextType (item : ContentItem) : bool :=
  match item_type item with
  | Some (JString t) => streq t (str "text")
  | _ => false
  end.

(** [data.content.filter(...).map(...).join('\n')] *)
Definition textContent (items : list ContentItem) : jsstring :=
  join [10] (map textOf (filter isTextType items)).

(** The [try] block of [extractInformation] up to the value of
    [extracted]; [None]: an error reached the [catch].  The status of the
    response is not looked at, and the one [JSON.parse] is all there is. *)
Definition extracted (w : ExtractionWorld) : option JSON :=
  match messages w with
  | FetchFailed => None
  | Fetched _ None => None
  | Fetched _ (Some data) =>
      match content data with
      | None | Some [] => None
      | Some items =>
          let text := textContent items in
          if nonEmpty text then JSON_parse (trim (stripFences 0 text))
          else None
      end
  end.

(** [extractInformation].  A reader error rejects the promise and lands in
    the [catch]; a [result] that is not a string throws inside the load
    handler, the promise never settles and the state stays as the first
    two setters left it.  [None]: the updater threw while rendering. *)
Definition extractInformation (w : ExtractionWorld) (f : File) (st : Component)
  : option Component :=
  let st1 := setError [] (setExtracting true st) in
  match reader w with
  | ReaderLoaded None => Some st1
  | ReaderError =>
      Some (setExtracting false (setError extractionFailedMessage st1))
  | ReaderLoaded (Some _) =>
      match extracted w with
      | Some ex =>
          match mergeExtracted ex (formData st1) with
          | Some fd =>
              Some (setExtracting false
                      (setExtractionComplete true (setFormData fd st1)))
          | None => None
          end
      | None =>
          Some (setExtracting false (setError extractionFailedMessage st1))
      end
  end.

Definition handleFileUpload (w : ExtractionWorld) (uploadedFile : option File)
    (st : Component) : option Component * list Call :=
  match uploadedFile with
  | None => (Some st, [])
  | Some f =>
      if negb (existsb (streq (type f)) validTypes) then
        (Some (setError unsupportedTypeMessage st), [])
      else
        let st1 := setExtractionComplete false
                     (setError [] (setFile (Some f) st)) in
        (extractInformation w f st1, [CallExtractInformation f])
  end.

End WithToString.

(** [data.Results.find(item => item.Variable === variable)?.Value || ''] *)
Definition findValue (results : list VinItem) (variable : jsstring) : jsstring :=
  match find (fun item => match Variable_ item with
                          | Some v => streq v variable
                          | None => false
                          end) results with
  | Some item => match Value item with Some v => v | None => [] end
  | None => []
  end.

(** The [updates] object: [vin] always, the other two keys when set *)
Record Updates : Type := {
  u_vin : jsstring;
  u_makeModel : option jsstring;
  u_year : option jsstring
}.

Definition updates (v : jsstring) (results : list VinItem) : Updates :=
  let make := findValue results (str "Make") in
  let model := findValue results (str "Model") in
  let model := if usable model then model
               else findValue results (str "Series") in
  let model := if usable model then model
               else findValue results (str "Trim") in
  let y := findValue results (str "Model Year") in
  let s := if usable make then make else [] in
  let s := if usable model
           then (if nonEmpty s then s ++ str " " ++ model else model)
           else s in
  {| u_vin := v;
     u_makeModel := if nonEmpty s then Some s else None;
     u_year := if usable y then Some y else None |}.

(** [{ ...prev, ...updates }] *)
Definition spread (prev : FormDataState) (u : Updates) : FormDataState :=
  {| fullName := fullName prev;
     address := address prev;
     year := match u_year u with Some y => JString y | None => year prev end;
     makeModel := match u_makeModel u with
                  | Some m => JString m
                  | None => makeModel prev
                  end;
     vin := JString (u_vin u);
     date := date prev |}.

(** [decodeVIN]: nothing is checked but that the body has [Results]. *)
Definition decodeVIN (w : VinWorld) (v : jsstring) (st : Component) : Component :=
  match w with
  | FetchFailed => st
  | Fetched _ None => st
  | Fetched _ (Some data) =>
      match Results data with
      | Some results => setFormData (spread (formData st) (updates v results)) st
      | None => st
      end
  end.

Definition handleInputChange (w : VinWorld) (field : Field) (value : jsstring)
    (st : Component) : Component * list Call :=
  let st1 := setFormData (setField field value (formData st)) st in
  match field with
  | vin_ =>
      if (List.length value =? 17)%nat
      then (decodeVIN w value st1, [CallDecodeVIN value])
      else (st1, [])
  | _ => (st1, [])
  end.

(** ['Authorization_Letter_' + fullName.replace(/\s+/g, '_') + '.jpg'];
    [None]: [fullName] is not a string and has no [replace]. *)
Definition downloadName (fd : FormDataState) : option jsstring :=
  match fullName fd with
  | JString s =>
      Some (str "Authorization_Letter_" ++ replaceWhitespaceRuns false s
            ++ str ".jpg")
  | _ => None
  end.

(** [disabled={!formData.fullName}] *)
Definition exportDisabled (fd : FormDataState) : bool :=
  negb (truthy (fullName fd)).

End Untyped.

(** ** The rest of the component: initial state, rendering, sessions *)

(** A fence marker starts somewhere in the text *)
Fixpoint hasFence (s : jsstring) : bool :=
  match s with
  | [] => false
  | _ :: t => startsWith fence s || hasFence t
  end.

Fixpoint takeWhile {A} (p : A -> bool) (l : list A) : list A :=
  match l with
  | [] => []
  | x :: t => if p x then x :: takeWhile p t else []
  end.

Module ISODate.
Import JSDate.
Local Open Scope Z_scope.

Definition digitChar (n : Z) : N := Z.to_N (48 + n).

(** The last [width] decimal digits of a number, zeros in front *)
Fixpoint padDigits (width : nat) (n : Z) : jsstring :=
  match width with
  | O => []
  | S w => padDigits w (n / 10) ++ [digitChar (n mod 10)]
  end.

(** Four digits for the years 0 to 9999, a sign and six digits beyond *)
Definition isoYear (y : Z) : jsstring :=
  if (0 <=? y) && (y <=? 9999) then padDigits 4 y
  else (if y <? 0 then [45%N] else [43%N]) ++ padDigits 6 (Z.abs y).

(** [new Date(t).toISOString()]: [YYYY-MM-DDTHH:mm:ss.sssZ], in UTC *)
Definition toISOString (t : Z) : jsstring :=
  let d := Day t in
  let ms := t mod msPerDay in
  isoYear (YearFromDay d) ++ [45%N] ++ padDigits 2 (MonthFromDay d + 1)
  ++ [45%N] ++ padDigits 2 (DateFromDay d)
  ++ [84%N] ++ padDigits 2 (ms / 3600000)
  ++ [58%N] ++ padDigits 2 (ms / 60000 mod 60)
  ++ [58%N] ++ padDigits 2 (ms / 1000 mod 60)
  ++ [46%N] ++ padDigits 3 (ms mod 1000) ++ [90%N].

(** [todayISO], at the time value [now]:
    [new Date().toISOString().split('T')[0]] *)
Definition todayISO (now : Z) : jsstring :=
  takeWhile (isNot 84) (toISOString now).

End ISODate.

(** The initial values of the five state cells, at the time value [now] *)
Definition initialFormData (now : Z) : FormDataState :=
  {| fullName := JString []; address := JString []; year := JString [];
     makeModel := JString []; vin := JString [];
     date := ISODate.todayISO now |}.

Definition initialComponent (now : Z) : Component :=
  {| file := None; extracting := false; formData := initialFormData now;
     extractionComplete := false; error := [] |}.

(** A session of the typed component: the events the user causes, each
    with the answer of the outside world to the requests it starts. *)
Module Session.

Inductive Event : Type :=
| Upload (w : ExtractionWorld) (uploadedFile : option File)
| Edit (w : VinWorld) (field : Field) (value : jsstring)
| Export (w : CanvasOutcome).

Definition handle (e : Event) (st : Component) : option Component :=
  match e with
  | Upload w f => fst (Typed.handleFileUpload w f st)
  | Edit w field value => Some (fst (Typed.handleInputChange w field value st))
  | Export w => Some (fst (Typed.clickExport w st))
  end.

(** The component renders after every state change; the export button
    reads [formData.fullName.trim()], which throws on a value that is not
    a string, and the component is gone. *)
Definition rendered (st : Component) : option Component :=
  match Typed.exportDisabled (formData st) with
  | Some _ => Some st
  | None => None
  end.

Definition step (e : Event) (st : Component) : option Component :=
  match handle e st with
  | Some st' => rendered st'
  | None => None
  end.

Fixpoint run (es : list Event) (st : Component) : option Component :=
  match es with
  | [] => Some st
  | e :: rest =>
      match step e st with
      | Some st' => run rest st'
      | None => None
      end
  end.

Definition isString (v : JSON) : bool :=
  match v with JString _ => true | _ => false end.

(** All five text fields hold strings *)
Definition stringForm (fd : FormDataState) : bool :=
  isString (fullName fd) && isString (address fd) && isString (year fd)
  && isString (makeModel fd) && isString (vin fd).

Definition formKeys : list jsstring :=
  map str ["fullName"; "address"; "year"; "makeModel"; "vin"]%string.

Definition stringOrAbsent (v : option JSON) : bool :=
  match v with
  | None | Some JNull | Some (JString _) => true
  | Some _ => false
  end.

(** A payload as its type declares it: not [null], and each of the five
    keys absent, [null] or a string *)
Definition wellTypedPayload (ex : JSON) : bool :=
  negb (isNull ex) && forallb (fun k => stringOrAbsent (getProp ex k)) formKeys.

Definition wellTypedEvent (e : Event) : bool :=
  match e with
  | Upload w _ =>
      match Typed.extracted w with
      | Some ex => wellTypedPayload ex
      | None => true
      end
  | _ => true
  end.

(** The date the form holds after a run of events, going by the date
    edits alone *)
Fixpoint dateAfter (es : list Event) (d : jsstring) : jsstring :=
  match es with
  | [] => d
  | Edit _ date_ value :: rest => dateAfter rest value
  | _ :: rest => dateAfter rest d
  end.

(** A value that [??] passes on and [||] does not: present, not [null],
    and falsy *)
Definition falsyValue (v : option JSON) : bool :=
  match v with
  | Some x => negb (isNull x) && negb (truthy x)
  | None => false
  end.

End Session.

(** ** Definitions that follow the specification's words *)
Module Spec.

(** A lookup value is present when it is neither empty nor the
    placeholder. *)
Definition present (s : jsstring) : bool :=
  negb (streq s []) && negb (streq s notApplicable).

Definition ifPresent (s : jsstring) : option jsstring :=
  if present s then Some s else None.

(** Model, else Series, else Trim: the first candidate that is present *)
Fixpoint firstPresent (candidates : list jsstring) : option jsstring :=
  match candidates with
  | [] => None
  | c :: rest => if present c then Some c else firstPresent rest
  end.

(** Make alone, model alone, or both with a space between; none if
    neither is present *)
Definition combined (make model : option jsstring) : option jsstring :=
  match make, model with
  | Some mk, Some md => Some (mk ++ str " " ++ md)
  | Some mk, None => Some mk
  | None, Some md => Some md
  | None, None => None
  end.

(** Set the field only if the derived value is there *)
Definition fill (derived : option jsstring) (prior : JSON) : JSON :=
  match derived with
  | Some s => JString s
  | None => prior
  end.

(** The download's name as the specification words it: the full name with
    its white space runs collapsed to underscores, or a default name when
    the full name is empty *)
Definition downloadName (default fullName : jsstring) : jsstring :=
  str "Authorization_Letter_"
  ++ (if nonEmpty fullName then replaceWhitespaceRuns false fullName
      else default)
  ++ str ".jpg".

(** The shortest prefix of a text that parses, the prefixes tried by
    growing length; [seen] is the part already passed, in reverse *)
Fixpoint shortestParsing (seen rest : jsstring) : option jsstring :=
  match rest with
  | [] => None
  | c :: t =>
      match JSON_parse (rev (c :: seen)) with
      | Some _ => Some (rev (c :: seen))
      | None => shortestParsing (c :: seen) t
      end
  end.

(** The first top-level object literal inside a text: at the first
    opening brace from which some stretch of text parses, that stretch *)
Fixpoint firstObjectLiteral (s : jsstring) : option jsstring :=
  match s with
  | [] => None
  | c :: t =>
      match (if c =? 123 then shortestParsing [] s else None) with
      | Some lit => Some lit
      | None => firstObjectLiteral t
      end
  end.

(** The extraction request fails: a network error, a status that is not a
    success, or a response whose text content is absent, empty or blank *)
Definition requestFails (w : ExtractionWorld) : Prop :=
  messages w = FetchFailed \/
  (exists body, messages w = Fetched false body) \/
  (exists data, messages w = Fetched true (Some data) /\
                trim (Typed.textContent data) = []).

(** Every parse attempt on the response text fails: the cleaned text does
    not parse, and neither does anything the brace pattern matches in it *)
Definition everyParseFails (w : ExtractionWorld) : Prop :=
  exists data,
    messages w = Fetched true (Some data) /\
    JSON_parse (Typed.cleanJson (Typed.textContent data)) = None /\
    forall m, matchBraces (Typed.cleanJson (Typed.textContent data)) = Some m ->
              JSON_parse m = None.

(** The failures the untyped component looks for: a network error, a body
    that is not JSON, a content list that is absent or empty, no text in
    it, or a text that does not parse once cleaned.  The status of the
    response is not among them. *)
Definition untypedFails (ToString : JSON -> jsstring) (w : ExtractionWorld) : Prop :=
  messages w = FetchFailed \/
  (exists ok, messages w = Fetched ok None) \/
  (exists ok data,
     messages w = Fetched ok (Some data) /\
     match content data with
     | None | Some [] => True
     | Some items =>
         Untyped.textContent ToString items = [] \/
         JSON_parse (trim (stripFences 0 (Untyped.textContent ToString items)))
         = None
     end).

End Spec.

(** ** Concrete inputs *)
Module Scenario.

(** JSON text written with an apostrophe wherever the text has a double
    quote *)
Definition json (s : string) : jsstring :=
  map (fun c => if c =? 39 then 34 else c) (str s).

Definition png : File :=
  {| name := str "slip.png"; type := str "image/png" |}.

Definition gif : File :=
  {| name := str "slip.gif"; type := str "image/gif" |}.

(** A form that the user has partly filled in *)
Definition priorForm : FormDataState :=
  {| fullName := JString (str "J. Doe");
     address := JString (str "12 Main St");
     year := JString [];
     makeModel := JString (str "Honda Civic");
     vin := JString [];
     date := str "2024-03-05" |}.

Definition component (fd : FormDataState) : Component :=
  {| file := None; extracting := false; formData := fd;
     extractionComplete := false; error := str "an earlier error" |}.

(** A successful response of the extraction service with one text entry *)
Definition answers (text : jsstring) : ExtractionWorld :=
  {| reader := ReaderLoaded (Some (str "data:image/png;base64,iVBORw0KGgo="));
     messages :=
       Fetched true
         (Some {| content :=
                    Some [{| item_type := Some (JString (str "text"));
                             item_text := Some (JString text) |}] |}) |}.

(** The response of the specification's upload scenario *)
Definition janeDoeText : jsstring :=
  str "```json" ++ [10]
  ++ json "{'fullName':'Jane Doe','address':'','year':'2019','makeModel':'','vin':'1HGBH41JXMN109186'}"
  ++ [10] ++ str "```".

(** A response with prose after the object that itself holds braces *)
Definition proseText : jsstring :=
  json "{'fullName':'Jane Doe'} Fields I could not read are left out, not sent as {}.".

(** A response with prose around the object and no brace in the prose *)
Definition wrappedText : jsstring :=
  str "Here is the result: " ++ json "{'fullName':'Jane Doe'}" ++ str " Done.".

(** A response whose status is not a success and whose body has the shape
    of an answer, with one text entry *)
Definition nonOkAnswers (text : jsstring) : ExtractionWorld :=
  {| reader := ReaderLoaded (Some (str "data:image/png;base64,iVBORw0KGgo="));
     messages :=
       Fetched false
         (Some {| content :=
                    Some [{| item_type := Some (JString (str "text"));
                             item_text := Some (JString text) |}] |}) |}.

Definition entry (variable value : string) : VinItem :=
  {| Variable_ := Some (str variable); Value := Some (str value) |}.

Definition hondaResults : list VinItem :=
  [entry "Make" "Honda"; entry "Model" "Not Applicable"; entry "Series" "Civic"].

Definition noDataResults : list VinItem :=
  [entry "Make" "Not Applicable"; entry "Model" "Not Applicable";
   entry "Series" "Not Applicable"; entry "Trim" "Not Applicable";
   entry "Model Year" "Not Applicable"].

Definition vin17 : jsstring := str "1HGBH41JXMN109186".

(** Halifax in winter: four hours behind UTC *)
Definition halifax : Z := (-4 * 3600000)%Z.

(** A run of events: an upload, a VIN edit with its lookup, a date edit,
    an upload that fails, an export *)
Definition sampleRun : list Session.Event :=
  [Session.Upload (answers janeDoeText) (Some png);
   Session.Edit (Fetched true (Some {| Results := Some hondaResults |}))
     vin_ vin17;
   Session.Edit FetchFailed date_ (str "2024-03-01");
   Session.Upload (answers (str "I cannot read this file.")) (Some png);
   Session.Export Blob].

End Scenario.

(** ** The parser's invariant *)

(** The outermost container is an object: the bottom frame of the stack
    is an object's, or the stack is empty and the container being read is
    one. *)
Fixpoint bottomObj (stack : list frame) : bool :=
  match stack with
  | [] => false
  | [FObj _ _] => true
  | [FArr _] => false
  | _ :: rest => bottomObj rest
  end.

Definition objOrBottom (stack : list frame) : bool :=
  match stack with
  | [] => true
  | _ :: _ => bottomObj stack
  end.

Definition rootObj (st : pstate) : bool :=
  match st with
  | PValue stack | PArrStart stack | PArrNext _ stack => bottomObj stack
  | PObjStart stack | PKey _ stack | PColon _ _ stack | PObjNext _ stack =>
      objOrBottom stack
  | PDone v => isObject v
  end.

(** * Facts about strings, the brace pattern and the parser *)

Lemma streq_true_iff (a b : jsstring) : streq a b = true <-> a = b.
Proof.
  revert b; induction a as [|x a IH]; intros [|y b]; simpl;
    try (split; [discriminate | congruence]); try tauto.
  rewrite andb_true_iff, N.eqb_eq, IH.
  split; [intros [-> ->]; reflexivity | intros H; inversion H; auto].
Qed.

Lemma streq_refl (a : jsstring) : streq a a = true.
Proof. apply streq_true_iff; reflexivity. Qed.

Lemma existsb_streq_In (t : jsstring) (l : list jsstring) :
  existsb (streq t) l = true <-> In t l.
Proof.
  rewrite existsb_exists; split.
  - intros (x & Hx & E). apply streq_true_iff in E; subst; exact Hx.
  - intros H; exists t; split; [exact H | apply streq_refl].
Qed.

Lemma nonEmpty_false_iff (s : jsstring) : nonEmpty s = false <-> s = [].
Proof. destruct s; simpl; split; congruence. Qed.

Lemma nonEmpty_true_iff (s : jsstring) : nonEmpty s = true <-> s <> [].
Proof. destruct s; simpl; split; congruence. Qed.

(** [dropWhile] splits a list into a prefix that satisfies the test and a
    rest that starts with an element that fails it. *)
Lemma dropWhile_split {A} (p : A -> bool) (l : list A) :
  exists pre, l = pre ++ dropWhile p l /\ forallb p pre = true.
Proof.
  induction l as [|x l (pre & E & F)]; simpl.
  - exists []; auto.
  - destruct (p x) eqn:Px.
    + exists (x :: pre); simpl; rewrite Px, F; split; [congruence | reflexivity].
    + exists []; auto.
Qed.

Lemma dropWhile_head {A} (p : A -> bool) (l : list A) (x : A) (r : list A) :
  dropWhile p l = x :: r -> p x = false.
Proof.
  induction l as [|y l IH]; simpl; [discriminate|].
  destruct (p y) eqn:Py; [exact IH|].
  intros E; inversion E; subst; exact Py.
Qed.

Lemma dropWhile_nil_iff {A} (p : A -> bool) (l : list A) :
  dropWhile p l = [] <-> forallb p l = true.
Proof.
  induction l as [|x l IH]; simpl; [tauto|].
  destruct (p x); simpl; [exact IH | split; discriminate].
Qed.

Lemma dropWhile_id {A} (p : A -> bool) (x : A) (l : list A) :
  p x = false -> dropWhile p (x :: l) = x :: l.
Proof. intros H; simpl; rewrite H; reflexivity. Qed.

Lemma forallb_rev {A} (p : A -> bool) (l : list A) :
  forallb p (rev l) = forallb p l.
Proof.
  induction l as [|x l IH]; simpl; [reflexivity|].
  rewrite forallb_app, IH; simpl. rewrite andb_true_r. apply andb_comm.
Qed.

(** [trim] removes a prefix and a suffix of white space and nothing else;
    what is left neither starts nor ends with white space. *)
Lemma trim_split (s : jsstring) :
  exists pre post,
    s = pre ++ trim s ++ post /\
    forallb isWhiteSpace pre = true /\ forallb isWhiteSpace post = true.
Proof.
  unfold trim, trimEnd, trimStart.
  destruct (dropWhile_split isWhiteSpace s) as (pre & E1 & F1).
  destruct (dropWhile_split isWhiteSpace (rev (dropWhile isWhiteSpace s)))
    as (rpost & E2 & F2).
  exists pre, (rev rpost); repeat split.
  - rewrite <- rev_app_distr, <- E2, rev_involutive; exact E1.
  - exact F1.
  - rewrite forallb_rev; exact F2.
Qed.

Lemma trim_head (s : jsstring) (c : N) (r : jsstring) :
  trim s = c :: r -> isWhiteSpace c = false.
Proof.
  unfold trim, trimEnd, trimStart; intros E.
  set (a := dropWhile isWhiteSpace s) in *.
  destruct (dropWhile_split isWhiteSpace (rev a)) as (rp & E2 & F2).
  assert (Ea : a = (c :: r) ++ rev rp).
  { rewrite <- E, <- rev_app_distr, <- E2, rev_involutive; reflexivity. }
  simpl in Ea. apply (dropWhile_head isWhiteSpace s c (r ++ rev rp)).
  exact Ea.
Qed.

Lemma trim_last (s r : jsstring) (c : N) :
  trim s = r ++ [c] -> isWhiteSpace c = false.
Proof.
  unfold trim, trimEnd; intros E.
  apply (f_equal (@rev N)) in E.
  rewrite rev_involutive, rev_app_distr in E; simpl in E.
  exact (dropWhile_head _ _ _ _ E).
Qed.

Lemma trim_nil_iff (s : jsstring) :
  trim s = [] <-> forallb isWhiteSpace s = true.
Proof.
  split.
  - intros E. destruct (trim_split s) as (pre & post & Es & F1 & F2).
    rewrite E in Es; simpl in Es. rewrite Es, forallb_app, F1, F2; reflexivity.
  - intros F. unfold trim, trimEnd, trimStart.
    apply dropWhile_nil_iff in F. rewrite F; reflexivity.
Qed.

(** A text that neither starts nor ends with white space is its own trim. *)
Lemma trim_id (s : jsstring) :
  match s with [] => True | c :: _ => isWhiteSpace c = false end ->
  match rev s with [] => True | c :: _ => isWhiteSpace c = false end ->
  trim s = s.
Proof.
  intros Hh Hl. unfold trim, trimEnd, trimStart.
  destruct s as [|c s]; [reflexivity|].
  rewrite (dropWhile_id _ _ _ Hh).
  destruct (rev (c :: s)) as [|d r] eqn:Er.
  - apply (f_equal (@rev N)) in Er; rewrite rev_involutive in Er; exact (eq_sym Er).
  - rewrite (dropWhile_id _ _ _ Hl), <- Er. apply rev_involutive.
Qed.

Lemma isNot_false (c x : N) : isNot c x = false -> x = c.
Proof.
  unfold isNot; intros H. apply negb_false_iff in H. apply N.eqb_eq; exact H.
Qed.

(** What the brace pattern matches: the span from the first opening brace
    of the text to its last closing brace. *)
Lemma matchBraces_span (s m : jsstring) :
  matchBraces s = Some m ->
  exists pre body post,
    s = pre ++ m ++ post /\ m = 123 :: body ++ [125] /\
    forallb (isNot 123) pre = true /\ forallb (isNot 125) post = true.
Proof.
  unfold matchBraces.
  destruct (dropWhile_split (isNot 123) s) as (pre & Es & Fpre).
  destruct (dropWhile (isNot 123) s) as [|open rest] eqn:Eo; [discriminate|].
  apply dropWhile_head, isNot_false in Eo; subst open.
  destruct (dropWhile_split (isNot 125) (rev rest)) as (rpost & Er & Fpost).
  destruct (dropWhile (isNot 125) (rev rest)) as [|close rb] eqn:Ec; [discriminate|].
  apply dropWhile_head, isNot_false in Ec; subst close.
  intros E; inversion E; subst m; clear E.
  exists pre, (rev rb), (rev rpost).
  assert (Erest : rest = (rev rb ++ [125]) ++ rev rpost).
  { apply (f_equal (@rev N)) in Er. rewrite rev_involutive in Er.
    rewrite Er, rev_app_distr; reflexivity. }
  split; [|split; [|split]].
  - rewrite Es at 1. rewrite Erest; simpl.
    rewrite <- !app_assoc; reflexivity.
  - simpl; reflexivity.
  - exact Fpre.
  - rewrite forallb_rev; exact Fpost.
Qed.

Lemma matchBraces_starts (s m : jsstring) :
  matchBraces s = Some m -> exists body, m = 123 :: body.
Proof.
  intros H. destruct (matchBraces_span s m H) as (_ & body & _ & _ & E & _).
  exists (body ++ [125]); exact E.
Qed.

Lemma bottomObj_cons (f : frame) (stack : list frame) :
  bottomObj stack = true -> bottomObj (f :: stack) = true.
Proof. destruct stack; [discriminate|]. destruct f; auto. Qed.

Lemma deliver_rootObj (v : JSON) (stack : list frame) :
  bottomObj stack = true -> rootObj (deliver v stack) = true.
Proof.
  destruct stack as [|[elems|ms k] [|g st]]; simpl; try discriminate; auto.
Qed.

Lemma deliver_object_rootObj (ms : list (jsstring * JSON)) (stack : list frame) :
  objOrBottom stack = true -> rootObj (deliver (JObject ms) stack) = true.
Proof.
  destruct stack as [|f st]; [reflexivity|].
  intros H; apply deliver_rootObj; exact H.
Qed.

Lemma stepValue_rootObj (stack : list frame) (t : token) (st' : pstate) :
  bottomObj stack = true -> stepValue stack t = Some st' -> rootObj st' = true.
Proof.
  intros B; destruct t; simpl; intros E; inversion E; subst;
    try (apply deliver_rootObj; exact B); simpl; try exact B.
  destruct stack; [discriminate | exact B].
Qed.

Lemma step_rootObj (st st' : pstate) (t : token) :
  rootObj st = true -> step st t = Some st' -> rootObj st' = true.
Proof.
  destruct st as [stack|stack|stack|ms stack|ms k stack|elems stack|ms stack|v];
    simpl; intros R E.
  - eapply stepValue_rootObj; eauto.
  - assert (B : bottomObj (FArr [] :: stack) = true)
      by (apply bottomObj_cons; exact R).
    destruct t; try (eapply stepValue_rootObj; [exact B | exact E]).
    inversion E; subst. apply deliver_rootObj; exact R.
  - destruct t; inversion E; subst; clear E.
    + apply deliver_object_rootObj; exact R.
    + exact R.
  - destruct t; inversion E; subst; exact R.
  - destruct t; inversion E; subst; simpl.
    destruct stack; [reflexivity | exact R].
  - destruct t; inversion E; subst; clear E.
    + apply deliver_rootObj; exact R.
    + simpl. destruct stack; [discriminate | exact R].
  - destruct t; inversion E; subst; clear E.
    + apply deliver_object_rootObj; exact R.
    + exact R.
  - discriminate.
Qed.

Lemma run_rootObj (ts : list token) (st : pstate) (v : JSON) :
  rootObj st = true -> run st ts = Some v -> isObject v = true.
Proof.
  revert st; induction ts as [|t ts IH]; simpl; intros st R E.
  - destruct st; try discriminate. inversion E; subst; exact R.
  - destruct (step st t) as [st'|] eqn:S; [|discriminate].
    eapply IH; [eapply step_rootObj; eauto | exact E].
Qed.

(** A text that starts with an opening brace parses to an object if it
    parses at all. *)
Lemma JSON_parse_brace (body : jsstring) (v : JSON) :
  JSON_parse (123 :: body) = Some v -> isObject v = true.
Proof.
  unfold JSON_parse.
  change (lex 0 (123 :: body)) with (consTok TLBrace (lex 0 body)).
  destruct (lex 0 body) as [ts|]; simpl; [|discriminate].
  apply run_rootObj; reflexivity.
Qed.

(** * The claims of the specification *)

(** ** Extraction merge *)

(** The untyped component fills a field only from a value that is there:
    an absent key, [null] and the empty string all keep the prior value,
    and a string that is not empty replaces it. *)
Lemma Untyped_merge_fill_if_present (ex : JSON) (prev fd : FormDataState) :
  Untyped.mergeExtracted ex prev = Some fd ->
  let law (key : string) (get : FormDataState -> JSON) :=
    match getProp ex (str key) with
    | None | Some JNull | Some (JString []) => get fd = get prev
    | Some (JString (c :: s)) => get fd = JString (c :: s)
    | Some _ => True
    end in
  law "fullName"%string fullName /\ law "address"%string address /\
  law "year"%string year /\ law "makeModel"%string makeModel /\
  law "vin"%string vin /\ date fd = date prev.
Proof.
  unfold Untyped.mergeExtracted.
  destruct (isNull ex); [discriminate|].
  intros E; inversion E; subst fd; clear E; cbv zeta; cbn [fullName address year makeModel vin date].
  repeat split;
    match goal with
    | |- context [getProp ex ?k] =>
        destruct (getProp ex k) as [[| | |[|]| |]|]; simpl; auto
    end.
Qed.

(** The typed component takes every value that is neither absent nor
    [null], the empty string included. *)
Lemma Typed_merge_takes_empty_string (members : list (jsstring * JSON))
    (prev fd : FormDataState) :
  Typed.mergeExtracted (JObject members) prev = Some fd ->
  lookupLast (str "address") members = Some (JString []) ->
  address fd = JString [].
Proof.
  unfold Typed.mergeExtracted; simpl.
  intros E H; inversion E; subst fd; clear E; simpl.
  rewrite H; reflexivity.
Qed.

(** C1.  The extraction merge is meant to fill a field only from a
    non-empty extracted string and to keep the prior value otherwise.  On
    the specification's own upload scenario, with an address and a
    make-model already entered and both extracted as empty strings, the
    typed component erases both entries, while the untyped component
    keeps them; the date is kept by both. *)
Theorem C1_extracted_empty_string_erases_entry :
  let st := Scenario.component Scenario.priorForm in
  let w := Scenario.answers Scenario.janeDoeText in
  address Scenario.priorForm = JString (str "12 Main St") /\
  makeModel Scenario.priorForm = JString (str "Honda Civic") /\
  option_map formData (Typed.extractInformation w Scenario.png st) =
    Some {| fullName := JString (str "Jane Doe");
            address := JString [];
            year := JString (str "2019");
            makeModel := JString [];
            vin := JString (str "1HGBH41JXMN109186");
            date := str "2024-03-05" |} /\
  option_map formData
    (Untyped.extractInformation (fun _ => []) w Scenario.png st) =
    Some {| fullName := JString (str "Jane Doe");
            address := JString (str "12 Main St");
            year := JString (str "2019");
            makeModel := JString (str "Honda Civic");
            vin := JString (str "1HGBH41JXMN109186");
            date := str "2024-03-05" |}.
Proof. repeat split; vm_compute; reflexivity. Qed.

(** ** Upload *)

Lemma Typed_allowed_iff (t : jsstring) :
  Typed.isAllowedMime t = true <->
  In t [str "application/pdf"; str "image/jpeg"; str "image/jpg"; str "image/png"].
Proof. unfold Typed.isAllowedMime. apply existsb_streq_In. Qed.

(** C5.  A file whose declared type is not one of application/pdf,
    image/jpeg, image/jpg, image/png sets the error, leaves the form as it
    was and calls no extraction; a file whose type is one of the four
    clears the error and the extraction-complete flag and calls the
    extraction once, on that file and on the cleared state.  Both versions
    of the component do so. *)
Theorem C5_upload_validates_media_type
    (ToString : JSON -> jsstring) (w : ExtractionWorld) (f : File) (st : Component) :
  let accepted :=
    [str "application/pdf"; str "image/jpeg"; str "image/jpg"; str "image/png"] in
  (~ In (type f) accepted ->
     (exists st', Typed.handleFileUpload w (Some f) st = (Some st', []) /\
                  error st' = unsupportedTypeMessage /\ error st' <> [] /\
                  formData st' = formData st) /\
     (exists st', Untyped.handleFileUpload ToString w (Some f) st = (Some st', []) /\
                  error st' = unsupportedTypeMessage /\ error st' <> [] /\
                  formData st' = formData st)) /\
  (In (type f) accepted ->
     exists st1,
       error st1 = [] /\ extractionComplete st1 = false /\
       formData st1 = formData st /\ file st1 = Some f /\
       Typed.handleFileUpload w (Some f) st =
         (Typed.extractInformation w f st1, [CallExtractInformation f]) /\
       Untyped.handleFileUpload ToString w (Some f) st =
         (Untyped.extractInformation ToString w f st1, [CallExtractInformation f])).
Proof.
  cbv zeta. split; intros H.
  - assert (E : Typed.isAllowedMime (type f) = false).
    { destruct (Typed.isAllowedMime (type f)) eqn:E; [|reflexivity].
      apply Typed_allowed_iff in E; contradiction. }
    unfold Typed.handleFileUpload, Untyped.handleFileUpload.
    change (existsb (streq (type f)) Untyped.validTypes)
      with (Typed.isAllowedMime (type f)).
    rewrite E; simpl.
    split; eexists; (split; [reflexivity|]); simpl;
      (split; [reflexivity | split; [discriminate | reflexivity]]).
  - apply Typed_allowed_iff in H.
    exists (setExtractionComplete false (setError [] (setFile (Some f) st))).
    unfold Typed.handleFileUpload, Untyped.handleFileUpload.
    change (existsb (streq (type f)) Untyped.validTypes)
      with (Typed.isAllowedMime (type f)).
    rewrite H; simpl. repeat split.
Qed.

Lemma C5_upload_witness :
  (exists st', Typed.handleFileUpload (Scenario.answers Scenario.janeDoeText)
                 (Some Scenario.gif) (Scenario.component Scenario.priorForm)
               = (Some st', []) /\
               error st' = unsupportedTypeMessage /\ error st' <> [] /\
               formData st' = Scenario.priorForm) /\
  (exists st1,
     error st1 = [] /\ extractionComplete st1 = false /\
     Typed.handleFileUpload (Scenario.answers Scenario.janeDoeText)
       (Some Scenario.png) (Scenario.component Scenario.priorForm)
     = (Typed.extractInformation (Scenario.answers Scenario.janeDoeText)
          Scenario.png st1, [CallExtractInformation Scenario.png])).
Proof.
  pose proof (C5_upload_validates_media_type (fun _ => [])
                (Scenario.answers Scenario.janeDoeText) Scenario.gif
                (Scenario.component Scenario.priorForm)) as [Hbad _].
  pose proof (C5_upload_validates_media_type (fun _ => [])
                (Scenario.answers Scenario.janeDoeText) Scenario.png
                (Scenario.component Scenario.priorForm)) as [_ Hgood].
  split.
  - destruct Hbad as [Ht _].
    + simpl; intros [H|[H|[H|[H|[]]]]]; vm_compute in H; discriminate.
    + exact Ht.
  - destruct Hgood as (st1 & E1 & E2 & _ & _ & E3 & _).
    + simpl; right; right; right; left; reflexivity.
    + exists st1; auto.
Defined.

(** ** VIN lookup trigger *)

(** C6.  An edit issues a VIN lookup exactly when the edited field is the
    VIN and the new value has 17 code units, whatever they are; the lookup
    is for that value, and an edit issues no other call.  In particular a
    shorter and a longer value issue none.  Both versions do so. *)
Theorem C6_lookup_iff_seventeen
    (w : VinWorld) (field : Field) (value : jsstring) (st : Component) :
  let calls := snd (Typed.handleInputChange w field value st) in
  (calls = [CallDecodeVIN value] <-> field = vin_ /\ List.length value = 17%nat) /\
  (calls = [] <-> ~ (field = vin_ /\ List.length value = 17%nat)) /\
  ((List.length value < 17)%nat -> calls = []) /\
  ((List.length value > 17)%nat -> calls = []) /\
  snd (Untyped.handleInputChange w field value st) = calls.
Proof.
  cbv zeta. unfold Typed.handleInputChange, Untyped.handleInputChange.
  destruct (Nat.eqb_spec (List.length value) 17) as [E|E];
    destruct field; simpl;
    repeat split; intros; try discriminate; try reflexivity;
    try tauto; try lia;
    try (match goal with H : _ /\ _ |- _ => destruct H; discriminate end);
    try (intros [? ?]; discriminate).
Qed.

Lemma C6_lookup_witness :
  snd (Typed.handleInputChange FetchFailed vin_ (str "1HGBH41JXMN10918")
         (Scenario.component Scenario.priorForm)) = [] /\
  snd (Typed.handleInputChange FetchFailed vin_ (str "1HGBH41JXMN1091866")
         (Scenario.component Scenario.priorForm)) = [] /\
  snd (Typed.handleInputChange FetchFailed vin_ (str "?????????????????")
         (Scenario.component Scenario.priorForm))
  = [CallDecodeVIN (str "?????????????????")].
Proof.
  split; [|split].
  - destruct (C6_lookup_iff_seventeen FetchFailed vin_ (str "1HGBH41JXMN10918")
                (Scenario.component Scenario.priorForm)) as (_ & _ & H & _).
    apply H. vm_compute. lia.
  - destruct (C6_lookup_iff_seventeen FetchFailed vin_ (str "1HGBH41JXMN1091866")
                (Scenario.component Scenario.priorForm)) as (_ & _ & _ & H & _).
    apply H. vm_compute. lia.
  - destruct (C6_lookup_iff_seventeen FetchFailed vin_ (str "?????????????????")
                (Scenario.component Scenario.priorForm)) as (H & _).
    apply H. split; reflexivity.
Defined.

(** ** VIN lookup merge *)

Lemma usable_present (s : jsstring) : usable s = Spec.present s.
Proof. destruct s; reflexivity. Qed.

Lemma present_nonEmpty (s : jsstring) : Spec.present s = true -> nonEmpty s = true.
Proof. destruct s; [discriminate | reflexivity]. Qed.

Lemma notApplicable_absent : Spec.present notApplicable = false.
Proof. reflexivity. Qed.

(** The make-model text of the code is the combination the specification
    describes, for any five lookup values. *)
Lemma makeModel_derivation (mk md se tr : jsstring) (prior : JSON) :
  let model := if usable md then md else se in
  let model := if usable model then model else tr in
  let s := if usable mk then mk else [] in
  let mm := if usable model
            then (if nonEmpty s then s ++ str " " ++ model else model)
            else s in
  (if nonEmpty mm then JString mm else prior) =
  Spec.fill (Spec.combined (Spec.ifPresent mk) (Spec.firstPresent [md; se; tr]))
    prior.
Proof.
  cbv zeta. unfold Spec.ifPresent, Spec.firstPresent.
  pose proof (present_nonEmpty md) as Nmd.
  pose proof (present_nonEmpty se) as Nse.
  pose proof (present_nonEmpty tr) as Ntr.
  pose proof (present_nonEmpty mk) as Nmk.
  destruct (Spec.present md) eqn:Pmd; destruct (Spec.present se) eqn:Pse;
    destruct (Spec.present tr) eqn:Ptr; destruct (Spec.present mk) eqn:Pmk;
    repeat (cbv iota; rewrite ?usable_present, ?Pmd, ?Pse, ?Ptr, ?Pmk);
    unfold Spec.fill, Spec.combined;
    repeat (cbv iota; cbn [nonEmpty];
            rewrite ?Nmd, ?Nse, ?Ntr, ?Nmk by reflexivity);
    try reflexivity;
    destruct mk; try discriminate; reflexivity.
Qed.

Lemma Typed_mergeVIN_derivation (v : jsstring) (results : list VinItem)
    (prev : FormDataState) :
  let get name := Typed.findValue results (str name) in
  Typed.mergeVIN v results prev =
  {| fullName := fullName prev;
     address := address prev;
     year := Spec.fill (Spec.ifPresent (get "Model Year"%string)) (year prev);
     makeModel :=
       Spec.fill
         (Spec.combined (Spec.ifPresent (get "Make"%string))
            (Spec.firstPresent
               [get "Model"%string; get "Series"%string; get "Trim"%string]))
         (makeModel prev);
     vin := JString v;
     date := date prev |}.
Proof.
  cbv zeta. unfold Typed.mergeVIN, Typed.makeModelStr, Typed.model.
  f_equal.
  - unfold Spec.ifPresent. rewrite usable_present.
    destruct (Spec.present _); reflexivity.
  - exact (makeModel_derivation
             (Typed.findValue results (str "Make"))
             (Typed.findValue results (str "Model"))
             (Typed.findValue results (str "Series"))
             (Typed.findValue results (str "Trim")) (makeModel prev)).
Qed.

Lemma spread_key (c : bool) (s : jsstring) (prior : JSON) :
  match (if c then Some s else None) with
  | Some m => JString m
  | None => prior
  end = if c then JString s else prior.
Proof. destruct c; reflexivity. Qed.

(** The untyped component's [updates] object, spread over the prior form,
    is the typed component's merge. *)
Lemma Untyped_spread_updates (v : jsstring) (results : list VinItem)
    (prev : FormDataState) :
  Untyped.spread prev (Untyped.updates v results) = Typed.mergeVIN v results prev.
Proof.
  unfold Untyped.spread, Untyped.updates, Typed.mergeVIN, Typed.makeModelStr,
    Typed.model.
  change Untyped.findValue with Typed.findValue.
  cbv zeta; cbn [Untyped.u_vin Untyped.u_makeModel Untyped.u_year].
  f_equal; apply spread_key.
Qed.

(** C2.  For every lookup response: the model candidate is the Model
    value, else Series, else Trim, the empty text and the placeholder
    counting as absent at each step; make and year come from Make and
    Model Year under the same rule; the VIN field is set to the looked-up
    VIN; make-model is set to make alone, model alone or both joined by a
    space, and kept when neither is there; year is set when derived and
    kept otherwise.  When every queried value is the placeholder,
    make-model and year are unchanged and the VIN is still set; Honda with
    a placeholder Model and Series Civic gives Honda Civic.  The untyped
    component makes the same update from a response that has results. *)
Theorem C2_vin_lookup_merge (v : jsstring) (data : VinData) (st : Component) :
  let results := match Results data with Some r => r | None => [] end in
  let get name := Typed.findValue results (str name) in
  let model :=
    Spec.firstPresent [get "Model"%string; get "Series"%string; get "Trim"%string] in
  let make := Spec.ifPresent (get "Make"%string) in
  let yr := Spec.ifPresent (get "Model Year"%string) in
  let prev := formData st in
  let fd := formData (Typed.decodeVIN (Fetched true (Some data)) v st) in
  (vin fd = JString v /\
   makeModel fd = Spec.fill (Spec.combined make model) (makeModel prev) /\
   year fd = Spec.fill yr (year prev)) /\
  ((forall name, In name ["Make"; "Model"; "Series"; "Trim"; "Model Year"]%string ->
                 get name = notApplicable) ->
   vin fd = JString v /\ makeModel fd = makeModel prev /\ year fd = year prev) /\
  makeModel (formData (Typed.decodeVIN
                         (Fetched true (Some {| Results := Some Scenario.hondaResults |}))
                         Scenario.vin17 st))
    = JString (str "Honda Civic") /\
  (forall ok, formData (Untyped.decodeVIN
                          (Fetched ok (Some {| Results := Some results |})) v st)
              = fd).
Proof.
  cbv zeta. unfold Typed.decodeVIN, Untyped.decodeVIN.
  cbn [formData setFormData Results].
  rewrite Untyped_spread_updates, !Typed_mergeVIN_derivation.
  cbn [vin makeModel year].
  split; [repeat split|split; [|split]].
  - intros H.
    rewrite !H by (simpl; tauto).
    repeat split.
  - reflexivity.
  - reflexivity.
Qed.

Lemma C2_vin_lookup_witness :
  let fd := formData (Typed.decodeVIN
                        (Fetched true (Some {| Results := Some Scenario.noDataResults |}))
                        Scenario.vin17 (Scenario.component Scenario.priorForm)) in
  vin fd = JString Scenario.vin17 /\
  makeModel fd = JString (str "Honda Civic") /\
  year fd = JString [].
Proof.
  destruct (C2_vin_lookup_merge Scenario.vin17
              {| Results := Some Scenario.noDataResults |}
              (Scenario.component Scenario.priorForm)) as (_ & H & _).
  apply H.
  simpl. intros name [E|[E|[E|[E|[E|[]]]]]]; subst name; reflexivity.
Defined.

(** C10.  The update after a lookup sets the VIN field to the value the
    lookup was made for, whatever the field holds by then, and changes no
    field but VIN, make-model and year: full name, address and date are
    the same after every lookup, whatever its outcome.  Both versions. *)
Theorem C10_vin_lookup_frame (w : VinWorld) (v : jsstring) (st : Component) :
  let prev := formData st in
  let typed := formData (Typed.decodeVIN w v st) in
  let untyped := formData (Untyped.decodeVIN w v st) in
  (forall results fd, vin (Typed.mergeVIN v results fd) = JString v) /\
  (forall data,
     vin (formData (Typed.decodeVIN (Fetched true (Some data)) v st)) = JString v) /\
  (forall ok results,
     vin (formData (Untyped.decodeVIN
                      (Fetched ok (Some {| Results := Some results |})) v st))
     = JString v) /\
  (fullName typed = fullName prev /\ address typed = address prev /\
   date typed = date prev) /\
  (fullName untyped = fullName prev /\ address untyped = address prev /\
   date untyped = date prev).
Proof.
  cbv zeta. repeat split;
    unfold Typed.decodeVIN, Untyped.decodeVIN;
    destruct w as [|[|] [data|]]; try reflexivity;
    destruct (Results data); reflexivity.
Qed.

(** ** The date line *)

Module DateFacts.
Import JSDate.
Local Open Scope Z_scope.

Lemma step4 (y : Z) :
  (y - 1968) / 4 = (y - 1969) / 4 + (if y mod 4 =? 0 then 1 else 0).
Proof. destruct (Z.eqb_spec (y mod 4) 0); Z.div_mod_to_equations; lia. Qed.

Lemma step100 (y : Z) :
  (y - 1900) / 100 = (y - 1901) / 100 + (if y mod 100 =? 0 then 1 else 0).
Proof. destruct (Z.eqb_spec (y mod 100) 0); Z.div_mod_to_equations; lia. Qed.

Lemma step400 (y : Z) :
  (y - 1600) / 400 = (y - 1601) / 400 + (if y mod 400 =? 0 then 1 else 0).
Proof. destruct (Z.eqb_spec (y mod 400) 0); Z.div_mod_to_equations; lia. Qed.

Lemma mod_chain (y : Z) :
  (y mod 400 = 0 -> y mod 100 = 0) /\ (y mod 100 = 0 -> y mod 4 = 0).
Proof. split; intros; Z.div_mod_to_equations; lia. Qed.

(** A year starts where the one before it ends. *)
Lemma DayFromYear_succ (y : Z) :
  DayFromYear (y + 1) = DayFromYear y + DaysInYear y.
Proof.
  unfold DayFromYear, DaysInYear, isLeapYear.
  replace (y + 1 - 1969) with (y - 1968) by lia.
  replace (y + 1 - 1901) with (y - 1900) by lia.
  replace (y + 1 - 1601) with (y - 1600) by lia.
  rewrite step4, step100, step400.
  destruct (mod_chain y) as [H1 H2].
  destruct (Z.eqb_spec (y mod 4) 0), (Z.eqb_spec (y mod 100) 0),
    (Z.eqb_spec (y mod 400) 0); cbn [andb orb negb]; lia.
Qed.

Lemma DayFromYear_mono (a b : Z) : a <= b -> DayFromYear a <= DayFromYear b.
Proof. unfold DayFromYear; intros; Z.div_mod_to_equations; lia. Qed.

(** [YearFromDay] is the year of the language specification: the one whose
    days include the given day. *)
Lemma YearFromDay_spec (d : Z) :
  DayFromYear (YearFromDay d) <= d < DayFromYear (YearFromDay d + 1).
Proof.
  unfold YearFromDay.
  set (y0 := 1970 + 400 * d / 146097).
  destruct (Z.ltb_spec d (DayFromYear y0));
    [|destruct (Z.leb_spec (DayFromYear (y0 + 1)) d)].
  - replace (y0 - 1 + 1) with y0 by lia. split; [|lia].
    unfold DayFromYear in *; subst y0; Z.div_mod_to_equations; lia.
  - split; [lia|].
    unfold DayFromYear in *; subst y0; Z.div_mod_to_equations; lia.
  - lia.
Qed.

Lemma YearFromDay_unique (d y : Z) :
  DayFromYear y <= d < DayFromYear (y + 1) -> YearFromDay d = y.
Proof.
  intros H. pose proof (YearFromDay_spec d) as S.
  set (z := YearFromDay d) in *.
  destruct (Z.lt_trichotomy z y) as [L|[E|G]]; [|exact E|].
  - pose proof (DayFromYear_mono (z + 1) y ltac:(lia)); lia.
  - pose proof (DayFromYear_mono (y + 1) z ltac:(lia)); lia.
Qed.

Ltac month_cases m :=
  let Hc := fresh "Hc" in
  assert (m = 0 \/ m = 1 \/ m = 2 \/ m = 3 \/ m = 4 \/ m = 5 \/ m = 6 \/
          m = 7 \/ m = 8 \/ m = 9 \/ m = 10 \/ m = 11) as Hc by lia;
  repeat (destruct Hc as [Hc|Hc]; [subst m|]); [..|subst m].

Lemma MakeDay_year (y m d : Z) :
  0 <= m <= 11 -> 1 <= d <= daysInMonth y m -> YearFromDay (MakeDay y m d) = y.
Proof.
  intros Hm Hd. apply YearFromDay_unique. rewrite DayFromYear_succ.
  unfold MakeDay, daysInMonth, DaysInYear in *.
  destruct (isLeapYear y); month_cases m; simpl in *; lia.
Qed.

Lemma MakeDay_month_date (y m d : Z) :
  0 <= m <= 11 -> 1 <= d <= daysInMonth y m ->
  MonthFromDay (MakeDay y m d) = m /\ DateFromDay (MakeDay y m d) = d.
Proof.
  intros Hm Hd. unfold DateFromDay, MonthFromDay, DayWithinYear, leapDay.
  rewrite (MakeDay_year y m d Hm Hd).
  unfold MakeDay, daysInMonth in *.
  set (D := DayFromYear y) in *.
  destruct (isLeapYear y); month_cases m;
    cbn [daysBeforeMonth Z.add Pos.add Pos.succ] in *;
    repeat match goal with
      | |- context [?a <? ?b] => destruct (Z.ltb_spec a b); try lia
      end;
    split; simpl; lia.
Qed.

(** East of Greenwich, and on it, local midnight-plus-offset is the same
    day; west of it, it is the day before. *)
Lemma Day_east (D tza : Z) :
  0 <= tza < msPerDay -> Day (msPerDay * D + tza) = D.
Proof.
  intros H; unfold Day; symmetry.
  apply Z.div_unique with (r := tza); unfold msPerDay in *; lia.
Qed.

Lemma Day_west (D tza : Z) :
  - msPerDay <= tza < 0 -> Day (msPerDay * D + tza) = D - 1.
Proof.
  intros H; unfold Day; symmetry.
  apply Z.div_unique with (r := tza + msPerDay); unfold msPerDay in *; lia.
Qed.

Lemma dateFields_valid (s : jsstring) (y m d : Z) :
  dateFields s = Some (y, m, d) ->
  1 <= m <= 12 /\ 1 <= d <= daysInMonth y (m - 1).
Proof.
  unfold dateFields.
  do 10 (destruct s as [|? s]; try discriminate).
  destruct s; [|discriminate].
  repeat match goal with
    | |- context [number2 ?a ?b] => destruct (number2 a b); try discriminate
    end.
  cbv zeta.
  match goal with
  | |- context [daysInMonth ?yy _] => generalize yy; intros y0
  end.
  match goal with
  | |- context [if ?c then _ else _] => destruct c eqn:C; [|discriminate]
  end.
  intros E; injection E as <- <- <-.
  rewrite !andb_true_iff, !Z.leb_le in C. lia.
Qed.

End DateFacts.

(** In a browser at or east of Greenwich the date line names the stored
    day, by the twelve-entry table. *)
Lemma formattedDate_east (tza : Z) (fd : FormDataState) (y m d : Z) :
  JSDate.dateFields (date fd) = Some (y, m, d) ->
  (0 <= tza < JSDate.msPerDay)%Z ->
  formattedDate tza fd =
  Some (nth (Z.to_nat (m - 1)) months [] ++ str " " ++ numberToString d
        ++ str ", " ++ numberToString y).
Proof.
  intros F H. unfold formattedDate, JSDate.parseDateOnly. rewrite F.
  destruct (DateFacts.dateFields_valid _ _ _ _ F) as [Hm Hd].
  unfold JSDate.getMonth, JSDate.getDate, JSDate.getFullYear.
  rewrite (DateFacts.Day_east _ _ H).
  destruct (DateFacts.MakeDay_month_date y (m - 1)%Z d ltac:(lia) Hd) as [-> ->].
  rewrite (DateFacts.MakeDay_year y (m - 1)%Z d ltac:(lia) Hd).
  do 2 f_equal. apply nth_indep.
  change (List.length months) with 12%nat. lia.
Qed.

(** C7.  The date line is "Month D, YYYY" by the twelve-entry table, and
    the stored date 2024-03-05 is to read "March 5, 2024".  It does so in
    a browser at or east of Greenwich; in every browser west of Greenwich
    the same stored date reads "March 4, 2024", the text being read as
    midnight UTC and written in local time. *)
Theorem C7_date_line_a_day_early_west_of_Greenwich (tza : Z) :
  let fd := Scenario.priorForm in
  date fd = str "2024-03-05" /\
  ((- JSDate.msPerDay <= tza < 0)%Z ->
   formattedDate tza fd = Some (str "March 4, 2024")) /\
  ((0 <= tza < JSDate.msPerDay)%Z ->
   formattedDate tza fd = Some (str "March 5, 2024")).
Proof.
  cbv zeta. split; [reflexivity|]. split; intros H.
  - unfold formattedDate.
    change (JSDate.parseDateOnly (date Scenario.priorForm))
      with (Some (JSDate.msPerDay * 19787)%Z).
    unfold JSDate.getMonth, JSDate.getDate, JSDate.getFullYear.
    rewrite (DateFacts.Day_west _ _ H). reflexivity.
  - rewrite (formattedDate_east tza Scenario.priorForm 2024 3 5 eq_refl H).
    reflexivity.
Qed.

Lemma C7_date_line_witness :
  formattedDate Scenario.halifax Scenario.priorForm = Some (str "March 4, 2024") /\
  formattedDate 0 Scenario.priorForm = Some (str "March 5, 2024").
Proof.
  destruct (C7_date_line_a_day_early_west_of_Greenwich Scenario.halifax)
    as (_ & Hw & _).
  destruct (C7_date_line_a_day_early_west_of_Greenwich 0) as (_ & _ & He).
  split.
  - apply Hw. unfold Scenario.halifax, JSDate.msPerDay. lia.
  - apply He. unfold JSDate.msPerDay. lia.
Defined.

(** ** The download *)

Lemma replaceWhitespaceRuns_nonEmpty (s : jsstring) :
  nonEmpty (replaceWhitespaceRuns false s) = nonEmpty s.
Proof.
  destruct s as [|c s]; [reflexivity|]. simpl.
  destruct (isWhiteSpace c); reflexivity.
Qed.

Lemma trim_blank (s : jsstring) :
  nonEmpty (trim s) = negb (forallb isWhiteSpace s).
Proof.
  destruct (forallb isWhiteSpace s) eqn:B.
  - apply trim_nil_iff in B. rewrite B; reflexivity.
  - destruct (trim s) eqn:T; [|reflexivity].
    apply trim_nil_iff in T. congruence.
Qed.

(** The untyped component has no default name, does not trim, and leaves
    the export button enabled on a name that is only white space. *)
Lemma Untyped_download (s : jsstring) (fd : FormDataState) :
  fullName fd = JString s ->
  Untyped.downloadName fd =
    Some (str "Authorization_Letter_" ++ replaceWhitespaceRuns false s ++ str ".jpg") /\
  Untyped.exportDisabled fd = negb (nonEmpty s).
Proof.
  unfold Untyped.downloadName, Untyped.exportDisabled; intros ->.
  split; [reflexivity | destruct s; reflexivity].
Qed.

(** C8, as the code has it, version by version.  In the typed component
    the download is named Authorization_Letter_, then the full name with
    the white space at its two ends removed and every white space run left
    in it turned into one underscore, or Customer when nothing is left,
    then .jpg; the export button is disabled, and a click on it does
    nothing, exactly when the full name is empty or all white space.  In
    the untyped component, for a full name that is not empty or all white
    space, the name is Authorization_Letter_, the full name with every
    white space run turned into one underscore and nothing trimmed, then
    .jpg, and the export button is enabled; the button is disabled when
    the full name is empty.  For a full name that is not empty and neither
    starts nor ends with white space the two versions give the same name,
    the one the specification words. *)
Theorem C8_download_name_trimmed
    (s : jsstring) (w : CanvasOutcome) (st : Component) :
  fullName (formData st) = JString s ->
  let fd := formData st in
  let blank := forallb isWhiteSpace s in
  Typed.downloadName fd =
    Some (str "Authorization_Letter_"
          ++ (if blank then str "Customer"
              else replaceWhitespaceRuns false (trim s))
          ++ str ".jpg") /\
  (exists pre post,
     s = pre ++ trim s ++ post /\
     forallb isWhiteSpace pre = true /\ forallb isWhiteSpace post = true /\
     (forall c r, trim s = c :: r -> isWhiteSpace c = false) /\
     (forall r c, trim s = r ++ [c] -> isWhiteSpace c = false)) /\
  Typed.exportDisabled fd = Some blank /\
  (blank = true -> Typed.clickExport w st = (st, None)) /\
  (blank = false -> Typed.clickExport Blob st = (st, Typed.downloadName fd)) /\
  (trim s = s -> Typed.downloadName fd = Some (Spec.downloadName (str "Customer") s)) /\
  (blank = false ->
   Untyped.downloadName fd =
     Some (str "Authorization_Letter_" ++ replaceWhitespaceRuns false s
           ++ str ".jpg") /\
   Untyped.exportDisabled fd = false) /\
  (s = [] -> Untyped.exportDisabled fd = true) /\
  (trim s = s -> s <> [] ->
   Untyped.downloadName fd = Some (Spec.downloadName (str "Customer") s) /\
   Untyped.downloadName fd = Typed.downloadName fd).
Proof.
  intros F; cbv zeta.
  assert (D : Typed.exportDisabled (formData st) = Some (forallb isWhiteSpace s)).
  { unfold Typed.exportDisabled. rewrite F, trim_blank, negb_involutive.
    reflexivity. }
  destruct (Untyped_download s (formData st) F) as (UN & UD).
  assert (TS : trim s = s ->
               Typed.downloadName (formData st) =
               Some (Spec.downloadName (str "Customer") s)).
  { intros T. unfold Typed.downloadName, Spec.downloadName. rewrite F, T.
    rewrite replaceWhitespaceRuns_nonEmpty.
    destruct s; reflexivity. }
  split; [|split; [|split; [exact D|split; [|split; [|split; [exact TS|
    split; [|split]]]]]]].
  - unfold Typed.downloadName. rewrite F.
    rewrite replaceWhitespaceRuns_nonEmpty, trim_blank.
    destruct (forallb isWhiteSpace s); reflexivity.
  - destruct (trim_split s) as (pre & post & E & Fp & Fq).
    exists pre, post. repeat split; auto.
    + apply trim_head.
    + intros r c; apply trim_last.
  - intros B. unfold Typed.clickExport. rewrite D, B. reflexivity.
  - intros B. unfold Typed.clickExport. rewrite D, B. reflexivity.
  - intros B. split; [exact UN|].
    rewrite UD. destruct s; [discriminate B | reflexivity].
  - intros ->. rewrite UD. reflexivity.
  - intros T N.
    assert (E : Untyped.downloadName (formData st) =
                Some (Spec.downloadName (str "Customer") s)).
    { rewrite UN. unfold Spec.downloadName.
      destruct s; [contradiction N; reflexivity | reflexivity]. }
    split; [exact E | rewrite E, (TS T); reflexivity].
Qed.

Lemma C8_download_name_witness :
  Typed.downloadName (setField fullName_ (str "  Jane   Doe ") Scenario.priorForm)
  = Some (str "Authorization_Letter_Jane_Doe.jpg") /\
  Untyped.downloadName (setField fullName_ (str "  Jane   Doe ") Scenario.priorForm)
  = Some (str "Authorization_Letter__Jane_Doe_.jpg") /\
  Typed.downloadName (setField fullName_ (str "   ") Scenario.priorForm)
  = Some (str "Authorization_Letter_Customer.jpg") /\
  Typed.clickExport Blob
    (Scenario.component (setField fullName_ (str "   ") Scenario.priorForm))
  = (Scenario.component (setField fullName_ (str "   ") Scenario.priorForm), None).
Proof.
  destruct (C8_download_name_trimmed (str "  Jane   Doe ") Blob
              (Scenario.component
                 (setField fullName_ (str "  Jane   Doe ") Scenario.priorForm))
              eq_refl) as (H1 & _ & _ & _ & _ & _ & H4 & _).
  destruct (C8_download_name_trimmed (str "   ") Blob
              (Scenario.component
                 (setField fullName_ (str "   ") Scenario.priorForm))
              eq_refl) as (H2 & _ & _ & H3 & _).
  split; [exact H1 | split; [apply H4; reflexivity
                            | split; [exact H2 | apply H3; reflexivity]]].
Defined.

(** As the specification words the name, a full name that ends with a
    space would give a name with an underscore before the extension; the
    typed component trims the name first.  In the untyped component a full
    name of three spaces leaves the export button enabled. *)
Lemma C8_download_name_not_only_collapsed :
  let fd := setField fullName_ (str "Jane Doe ") Scenario.priorForm in
  let blank := setField fullName_ (str "   ") Scenario.priorForm in
  Spec.downloadName (str "Customer") (str "Jane Doe ")
  = str "Authorization_Letter_Jane_Doe_.jpg" /\
  Typed.downloadName fd = Some (str "Authorization_Letter_Jane_Doe.jpg") /\
  Typed.downloadName fd
  <> Some (Spec.downloadName (str "Customer") (str "Jane Doe ")) /\
  Untyped.exportDisabled blank = false /\
  Untyped.downloadName blank = Some (str "Authorization_Letter__.jpg").
Proof.
  cbv zeta. split; [reflexivity | split; [reflexivity|split; [|split; reflexivity]]].
  vm_compute. discriminate.
Qed.

(** ** Parsing the response, and failure *)

(** What the [try] block of the typed component comes to once the file is
    read and a successful response with text has arrived *)
Lemma Typed_extracted_of_text (w : ExtractionWorld) (b : jsstring)
    (data : AnthropicResponse) :
  Typed.fileToBase64 (reader w) = Some b ->
  messages w = Fetched true (Some data) ->
  trim (Typed.textContent data) <> [] ->
  Typed.extracted w =
  Typed.parseExtracted (Typed.cleanJson (Typed.textContent data)).
Proof.
  intros R M T. unfold Typed.extracted. rewrite R, M.
  apply nonEmpty_true_iff in T. rewrite T. reflexivity.
Qed.

Lemma Typed_merge_object (v : JSON) (prev : FormDataState) :
  isObject v = true -> exists fd, Typed.mergeExtracted v prev = Some fd.
Proof.
  destruct v; try discriminate. intros _. eexists; reflexivity.
Qed.

Lemma extractionFailedMessage_nonEmpty : [] <> extractionFailedMessage.
Proof. discriminate. Qed.

(** The untyped component has one parse and no second attempt. *)
Lemma Untyped_no_salvage (ToString : JSON -> jsstring) (w : ExtractionWorld)
    (f : File) (st : Component) (r : jsstring) (ok : bool)
    (item : ContentItem) (items : list ContentItem) :
  reader w = ReaderLoaded (Some r) ->
  messages w = Fetched ok (Some {| content := Some (item :: items) |}) ->
  JSON_parse (trim (stripFences 0 (Untyped.textContent ToString (item :: items))))
    = None ->
  Untyped.extractInformation ToString w f st =
  Some (setExtracting false
          (setError extractionFailedMessage (setError [] (setExtracting true st)))).
Proof.
  intros R M P. unfold Untyped.extractInformation, Untyped.extracted.
  rewrite R, M. cbn [content]. rewrite P.
  destruct (nonEmpty _); reflexivity.
Qed.

(** When the cleaned text does not parse, the typed component parses
    what the brace pattern matches in it, which is
    the span from the first opening brace of the text to its last closing
    brace; the extraction is reported as failed exactly when there is no
    such span or the span does not parse, and otherwise the parsed object
    is merged and the extraction is complete. *)
Theorem Typed_salvage_parses_brace_span
    (w : ExtractionWorld) (f : File) (st : Component) (b : jsstring)
    (data : AnthropicResponse) :
  Typed.fileToBase64 (reader w) = Some b ->
  messages w = Fetched true (Some data) ->
  trim (Typed.textContent data) <> [] ->
  let clean := Typed.cleanJson (Typed.textContent data) in
  JSON_parse clean = None ->
  Typed.parseExtracted clean =
    match matchBraces clean with
    | Some m => JSON_parse m
    | None => None
    end /\
  (forall m, matchBraces clean = Some m ->
     exists pre body post,
       clean = pre ++ m ++ post /\ m = 123 :: body ++ [125] /\
       forallb (isNot 123) pre = true /\ forallb (isNot 125) post = true) /\
  exists st',
    Typed.extractInformation w f st = Some st' /\
    (error st' = extractionFailedMessage <->
     matchBraces clean = None \/
     exists m, matchBraces clean = Some m /\ JSON_parse m = None) /\
    (forall m v, matchBraces clean = Some m -> JSON_parse m = Some v ->
       Typed.mergeExtracted v (formData st) = Some (formData st') /\
       extractionComplete st' = true /\ error st' = []).
Proof.
  intros R M T clean P.
  assert (E : Typed.parseExtracted clean =
              match matchBraces clean with
              | Some m => JSON_parse m
              | None => None
              end).
  { unfold Typed.parseExtracted. rewrite P. reflexivity. }
  split; [exact E|]. split; [intros m; apply matchBraces_span|].
  unfold Typed.extractInformation.
  rewrite (Typed_extracted_of_text w b data R M T). fold clean. rewrite E.
  destruct (matchBraces clean) as [m|] eqn:B.
  - destruct (JSON_parse m) as [v|] eqn:Pm.
    + destruct (matchBraces_starts _ _ B) as (body & ->).
      pose proof (JSON_parse_brace _ _ Pm) as O.
      destruct (Typed_merge_object v (formData st) O) as (fd & Hfd).
      cbn [formData setError setExtracting]. rewrite Hfd.
      eexists; split; [reflexivity|]. cbn. split.
      * split.
        -- intros H. exfalso. exact (extractionFailedMessage_nonEmpty H).
        -- intros [H|(m' & H & H')]; [discriminate|].
           inversion H; subst m'. congruence.
      * intros m' v' H H'. inversion H; subst m'.
        rewrite Pm in H'. inversion H'; subst v'. auto.
    + eexists; split; [reflexivity|]. cbn. split.
      * split; [|reflexivity]. intros _. right. exists m; auto.
      * intros m' v' H H'. inversion H; subst m'. congruence.
  - eexists; split; [reflexivity|]. cbn. split.
    + split; [|reflexivity]. intros _. left; reflexivity.
    + intros m' v' H; discriminate.
Qed.

Lemma Typed_salvage_example :
  option_map (fun c => (fullName (formData c), extractionComplete c, error c))
    (Typed.extractInformation
       (Scenario.answers (str "Here is the result: " ++ Scenario.json "{'fullName':'Jane Doe'}" ++ str " Done."))
       Scenario.png (Scenario.component Scenario.priorForm))
  = Some (JString (str "Jane Doe"), true, []).
Proof.
  destruct (Typed_salvage_parses_brace_span
              (Scenario.answers (str "Here is the result: " ++ Scenario.json "{'fullName':'Jane Doe'}" ++ str " Done."))
              Scenario.png (Scenario.component Scenario.priorForm)
              (str "iVBORw0KGgo=") _ eq_refl eq_refl)
    as (_ & _ & st' & E & _ & H).
  - vm_compute; discriminate.
  - vm_compute; reflexivity.
  - rewrite E. cbn [option_map].
    destruct (H (Scenario.json "{'fullName':'Jane Doe'}")
                (JObject [(str "fullName", JString (str "Jane Doe"))]))
      as (Hm & Hc & He).
    + vm_compute; reflexivity.
    + vm_compute; reflexivity.
    + rewrite Hc, He. remember (formData st') as fd eqn:Efd. clear Efd.
      vm_compute in Hm. injection Hm as Hm. rewrite <- Hm. reflexivity.
Defined.

(** C3.  When the cleaned text does not parse, the first object literal
    in it is to be salvaged and parsed, and the extraction is to fail only
    if that does not work.  The typed component matches from the first
    opening brace to the last closing one instead: with prose after the
    object that holds a closing brace, the first object literal is there
    and parses, the matched span does not, and the extraction is reported
    as failed.  The untyped component has no salvage: prose around the
    object, without any brace in it, is enough for the extraction to be
    reported as failed, where the typed component recovers the object. *)
Theorem C3_salvage_misses_first_object :
  let st := Scenario.component Scenario.priorForm in
  let literal := Scenario.json "{'fullName':'Jane Doe'}" in
  let clean := Typed.cleanJson Scenario.proseText in
  let wrapped := Typed.cleanJson Scenario.wrappedText in
  let outcome := option_map (fun c => (fullName (formData c), error c)) in
  JSON_parse literal = Some (JObject [(str "fullName", JString (str "Jane Doe"))]) /\
  (JSON_parse clean = None /\
   Spec.firstObjectLiteral clean = Some literal /\
   matchBraces clean <> Some literal /\
   Typed.parseExtracted clean = None /\
   outcome (Typed.extractInformation (Scenario.answers Scenario.proseText)
              Scenario.png st)
   = Some (JString (str "J. Doe"), extractionFailedMessage)) /\
  (JSON_parse wrapped = None /\
   Spec.firstObjectLiteral wrapped = Some literal /\
   outcome (Typed.extractInformation (Scenario.answers Scenario.wrappedText)
              Scenario.png st)
   = Some (JString (str "Jane Doe"), []) /\
   outcome (Untyped.extractInformation (fun _ => [])
              (Scenario.answers Scenario.wrappedText) Scenario.png st)
   = Some (JString (str "J. Doe"), extractionFailedMessage)).
Proof.
  cbv zeta. repeat split; try (vm_compute; reflexivity).
  vm_compute. discriminate.
Qed.

(** ** Failure and success of an extraction *)

Lemma Typed_extraction_failure (w : ExtractionWorld) (f : File) (st : Component) :
  Typed.extracted w = None ->
  Typed.extractInformation w f st =
  Some {| file := file st; extracting := false; formData := formData st;
          extractionComplete := extractionComplete st;
          error := extractionFailedMessage |}.
Proof.
  intros E. unfold Typed.extractInformation. rewrite E. reflexivity.
Qed.

Lemma Typed_failures_reach_catch (w : ExtractionWorld) :
  Spec.requestFails w \/ Spec.everyParseFails w -> Typed.extracted w = None.
Proof.
  unfold Typed.extracted.
  destruct (Typed.fileToBase64 (reader w)); [|reflexivity].
  intros [[M|[(body & M)|(data & M & T)]]|(data & M & P & S)]; rewrite M;
    try reflexivity.
  - rewrite T; reflexivity.
  - destruct (nonEmpty _); [|reflexivity].
    unfold Typed.parseExtracted. rewrite P.
    destruct (matchBraces _) as [m|] eqn:B; [apply S; reflexivity | reflexivity].
Qed.

Lemma Untyped_failures_reach_catch (ToString : JSON -> jsstring)
    (w : ExtractionWorld) :
  Spec.untypedFails ToString w -> Untyped.extracted ToString w = None.
Proof.
  unfold Untyped.extracted.
  intros [M|[(ok & M)|(ok & data & M & C)]]; rewrite M; try reflexivity.
  destruct (content data) as [[|item items]|]; try reflexivity.
  destruct C as [E|P].
  - rewrite E. reflexivity.
  - rewrite P. destruct (nonEmpty _); reflexivity.
Qed.

(** C4.  When the request fails (network error, status that is not a
    success, no text in the response) or every parse attempt on the text
    fails, the extraction is to set the one generic error message and to
    leave every field of the form as it was.  The typed component does,
    and so does the upload that started it.  The untyped component does
    for the failures it looks for, but it never reads the status: a
    response that is not a success and carries a text that parses is
    merged into the form and reported as a completed extraction. *)
Theorem C4_failure_keeps_form_unless_status_unread
    (ToString : JSON -> jsstring) (w : ExtractionWorld) (f : File)
    (st : Component) :
  let failed :=
    Some {| file := file st; extracting := false; formData := formData st;
            extractionComplete := extractionComplete st;
            error := extractionFailedMessage |} in
  let bad := Scenario.nonOkAnswers (Scenario.json "{'fullName':'Jane Doe'}") in
  (Spec.requestFails w \/ Spec.everyParseFails w ->
   Typed.extractInformation w f st = failed /\
   (Typed.isAllowedMime (type f) = true ->
    fst (Typed.handleFileUpload w (Some f) st) =
      Some {| file := Some f; extracting := false; formData := formData st;
              extractionComplete := false;
              error := extractionFailedMessage |})) /\
  (Spec.untypedFails ToString w ->
   reader w = ReaderError \/ (exists r, reader w = ReaderLoaded (Some r)) ->
   Untyped.extractInformation ToString w f st = failed) /\
  (Spec.requestFails bad /\
   Typed.extractInformation bad f st = failed /\
   Untyped.extractInformation ToString bad f st =
     Some {| file := file st; extracting := false;
             formData := setField fullName_ (str "Jane Doe") (formData st);
             extractionComplete := true; error := [] |}).
Proof.
  cbv zeta. split; [|split].
  - intros H. apply Typed_failures_reach_catch in H. split.
    + apply Typed_extraction_failure; exact H.
    + intros A. unfold Typed.handleFileUpload. rewrite A. cbn [negb fst].
      unfold Typed.extractEnabled. cbn [fst].
      rewrite (Typed_extraction_failure _ _ _ H). reflexivity.
  - intros H R. apply Untyped_failures_reach_catch in H.
    unfold Untyped.extractInformation. rewrite H.
    destruct R as [->|(r & ->)]; reflexivity.
  - split; [|split].
    + right. left. eexists. reflexivity.
    + reflexivity.
    + reflexivity.
Qed.

Lemma C4_failure_witness :
  let w := {| reader := ReaderLoaded (Some (str "data:image/png;base64,iVBORw0KGgo="));
              messages := Fetched false None |} in
  option_map (fun c => (formData c, error c))
    (fst (Typed.handleFileUpload w (Some Scenario.png)
            (Scenario.component Scenario.priorForm)))
  = Some (Scenario.priorForm, extractionFailedMessage) /\
  option_map (fun c => (formData c, error c))
    (Typed.extractInformation (Scenario.answers (str "I cannot read this file."))
       Scenario.png (Scenario.component Scenario.priorForm))
  = Some (Scenario.priorForm, extractionFailedMessage) /\
  option_map (fun c => (formData c, error c))
    (Untyped.extractInformation (fun _ => [])
       (Scenario.answers (str "I cannot read this file."))
       Scenario.png (Scenario.component Scenario.priorForm))
  = Some (Scenario.priorForm, extractionFailedMessage).
Proof.
  cbv zeta. split; [|split].
  - destruct (C4_failure_keeps_form_unless_status_unread (fun _ => [])
                {| reader := ReaderLoaded (Some (str "data:image/png;base64,iVBORw0KGgo="));
                   messages := Fetched false None |}
                Scenario.png (Scenario.component Scenario.priorForm)) as (H & _).
    destruct H as (_ & H).
    + left. right. left. exists None. reflexivity.
    + rewrite H by reflexivity. reflexivity.
  - destruct (C4_failure_keeps_form_unless_status_unread (fun _ => [])
                (Scenario.answers (str "I cannot read this file."))
                Scenario.png (Scenario.component Scenario.priorForm)) as (H & _).
    destruct H as (H & _).
    + right. eexists. split; [reflexivity|]. split; [vm_compute; reflexivity|].
      intros m B. vm_compute in B. discriminate.
    + rewrite H. reflexivity.
  - destruct (C4_failure_keeps_form_unless_status_unread (fun _ => [])
                (Scenario.answers (str "I cannot read this file."))
                Scenario.png (Scenario.component Scenario.priorForm)) as (_ & H & _).
    rewrite H.
    + reflexivity.
    + right. right. exists true. eexists. split; [reflexivity|].
      right. vm_compute. reflexivity.
    + right. eexists. reflexivity.
Defined.

Lemma Typed_merge_non_object (v : JSON) (prev : FormDataState) :
  isObject v = false -> isNull v = false ->
  Typed.mergeExtracted v prev = Some prev.
Proof.
  destruct prev; destruct v; try discriminate; reflexivity.
Qed.

Lemma Untyped_merge_non_object (v : JSON) (prev : FormDataState) :
  isObject v = false -> isNull v = false ->
  Untyped.mergeExtracted v prev = Some prev.
Proof.
  destruct prev; destruct v; try discriminate; reflexivity.
Qed.

(** C9.  When the cleaned text parses to a value that is neither an
    object nor null (a quoted string, a number, a boolean, an array), the
    extraction succeeds: no field is there to take, the form stays as it
    was, no error is shown and the extraction-complete flag is set.  Both
    versions. *)
Theorem C9_non_object_payload_succeeds
    (ToString : JSON -> jsstring) (w : ExtractionWorld) (f : File)
    (st : Component) (data : AnthropicResponse) (v : JSON) :
  messages w = Fetched true (Some data) ->
  trim (Typed.textContent data) <> [] ->
  JSON_parse (Typed.cleanJson (Typed.textContent data)) = Some v ->
  isObject v = false -> isNull v = false ->
  let done :=
    Some {| file := file st; extracting := false; formData := formData st;
            extractionComplete := true; error := [] |} in
  (forall b, Typed.fileToBase64 (reader w) = Some b ->
             Typed.extractInformation w f st = done) /\
  (forall r items,
     reader w = ReaderLoaded (Some r) ->
     content data = Some items ->
     Untyped.textContent ToString items = Typed.textContent data ->
     Untyped.extractInformation ToString w f st = done).
Proof.
  intros M T P O N; cbv zeta. split.
  - intros b B. unfold Typed.extractInformation.
    rewrite (Typed_extracted_of_text w b data B M T).
    unfold Typed.parseExtracted. rewrite P.
    cbn [formData setError setExtracting].
    rewrite (Typed_merge_non_object v _ O N). reflexivity.
  - intros r items R C U.
    unfold Untyped.extractInformation, Untyped.extracted.
    rewrite R, M, C, U.
    assert (NE : nonEmpty (Typed.textContent data) = true).
    { destruct (Typed.textContent data); [contradiction T; reflexivity | reflexivity]. }
    destruct items as [|item items].
    + unfold Typed.textContent in NE. rewrite C in NE. discriminate.
    + rewrite NE. unfold Typed.cleanJson in P. rewrite P.
      cbn [formData setError setExtracting].
      rewrite (Untyped_merge_non_object v _ O N). reflexivity.
Qed.

Lemma C9_non_object_payload_witness :
  let st := Scenario.component Scenario.priorForm in
  let done := Some {| file := None; extracting := false; formData := Scenario.priorForm;
                      extractionComplete := true; error := [] |} in
  Typed.extractInformation (Scenario.answers (str "42")) Scenario.png st = done /\
  Typed.extractInformation (Scenario.answers (Scenario.json "'not found'"))
    Scenario.png st = done /\
  Untyped.extractInformation (fun _ => []) (Scenario.answers (str "42"))
    Scenario.png st = done.
Proof.
  cbv zeta.
  destruct (C9_non_object_payload_succeeds (fun _ => [])
              (Scenario.answers (str "42")) Scenario.png
              (Scenario.component Scenario.priorForm)
              _ (JNumber 42 0) eq_refl)
    as (H1 & H2); try reflexivity; [vm_compute; discriminate|].
  destruct (C9_non_object_payload_succeeds (fun _ => [])
              (Scenario.answers (Scenario.json "'not found'")) Scenario.png
              (Scenario.component Scenario.priorForm)
              _ (JString (str "not found")) eq_refl)
    as (H3 & _); try reflexivity; [vm_compute; discriminate|].
  split; [|split].
  - exact (H1 _ eq_refl).
  - exact (H3 _ eq_refl).
  - exact (H2 _ _ eq_refl eq_refl eq_refl).
Defined.

(** A lookup that completes after the user has retyped the VIN field puts
    the looked-up VIN back. *)
Lemma retyped_vin_is_overwritten (data : VinData) :
  let st0 := Scenario.component Scenario.priorForm in
  let st1 := fst (Typed.handleInputChange FetchFailed vin_ Scenario.vin17 st0) in
  let st2 := fst (Typed.handleInputChange FetchFailed vin_ (str "1HG") st1) in
  vin (formData st2) = JString (str "1HG") /\
  vin (formData (Typed.decodeVIN (Fetched true (Some data)) Scenario.vin17 st2))
  = JString Scenario.vin17.
Proof. split; reflexivity. Qed.

(** * More of the component

    Properties of the code that the claims do not reach: the reading of
    the uploaded file, the cleaning and salvaging of the response text,
    the two merges as operations, the initial date, rendering, and runs of
    events. *)

(** ** Reading the file *)
Lemma splitComma_no_comma (s : jsstring) :
  forallb (isNot 44) s = true -> splitComma s = (s, []).
Proof.
  induction s as [|c s IH]; simpl; [reflexivity|].
  intros H. apply andb_true_iff in H as [Hc Hs]. rewrite (IH Hs).
  unfold isNot in Hc. apply negb_true_iff in Hc. rewrite Hc. reflexivity.
Qed.

Lemma splitComma_app (a b : jsstring) :
  forallb (isNot 44) a = true ->
  splitComma (a ++ 44 :: b) = (a, fst (splitComma b) :: snd (splitComma b)).
Proof.
  induction a as [|c a IH]; simpl.
  - intros _. destruct (splitComma b); reflexivity.
  - intros H. apply andb_true_iff in H as [Hc Hs]. rewrite (IH Hs).
    unfold isNot in Hc. apply negb_true_iff in Hc. rewrite Hc. reflexivity.
Qed.

Lemma splitComma_fst_no_comma (s : jsstring) : forallb (isNot 44) (fst (splitComma s)) = true.
Proof.
  induction s as [|c s IH]; simpl; [reflexivity|].
  destruct (splitComma s) as [cur rest]. simpl in *.
  destruct (c =? 44) eqn:E; simpl; [reflexivity|].
  unfold isNot. rewrite E. simpl. exact IH.
Qed.

(** X1.  [fileToBase64] resolves with the text between the first comma
    of the data URL and the next one, or the end; it rejects exactly when
    the data URL has no comma. *)
Theorem fileToBase64_payload (header payload rest : jsstring) (s : jsstring) :
  (forallb (isNot 44) header = true -> forallb (isNot 44) payload = true ->
   Typed.fileToBase64 (ReaderLoaded (Some (header ++ [44] ++ payload))) = Some payload /\
   Typed.fileToBase64 (ReaderLoaded (Some (header ++ [44] ++ payload ++ [44] ++ rest))) = Some payload) /\
  (Typed.fileToBase64 (ReaderLoaded (Some s)) = None <-> forallb (isNot 44) s = true).
Proof.
  split.
  - intros Hh Hp. unfold Typed.fileToBase64, split_comma. split.
    + simpl app. rewrite (splitComma_app _ _ Hh), (splitComma_no_comma _ Hp). reflexivity.
    + simpl app. rewrite (splitComma_app _ _ Hh), (splitComma_app _ _ Hp). reflexivity.
  - unfold Typed.fileToBase64, split_comma. split.
    + destruct (dropWhile_split (isNot 44) s) as (pre & E & F).
      destruct (dropWhile (isNot 44) s) as [|c r] eqn:D.
      * intros _. rewrite app_nil_r in E. subst; exact F.
      * apply dropWhile_head, isNot_false in D. subst c.
        rewrite E, (splitComma_app _ _ F). discriminate.
    + intros H. rewrite (splitComma_no_comma _ H). reflexivity.
Qed.

Lemma fileToBase64_witness :
  Typed.fileToBase64 (ReaderLoaded (Some (str "data:image/png;base64,iVBORw0KGgo=")))
  = Some (str "iVBORw0KGgo=").
Proof.
  destruct (fileToBase64_payload (str "data:image/png;base64") (str "iVBORw0KGgo=")
              [] []) as (H & _).
  destruct (H eq_refl eq_refl) as (H1 & _). exact H1.
Defined.

(** ** Cleaning the response text *)
Lemma stripFences_skip (k : nat) (s : jsstring) :
  stripFences k s = stripFences 0 (skipn k s).
Proof.
  revert s; induction k as [|k IH]; intros s; [reflexivity|].
  destruct s as [|c t]; [reflexivity|]. simpl skipn. rewrite <- IH. reflexivity.
Qed.

Lemma startsWith_fenceJson_fence (s : jsstring) :
  startsWith fenceJson s = true -> startsWith fence s = true.
Proof.
  unfold fenceJson, fence.
  destruct s as [|a [|b [|c s]]]; cbn [startsWith str map list_ascii_of_string];
    rewrite ?andb_false_r; try discriminate.
  rewrite !andb_true_iff. tauto.
Qed.

Lemma startsWith_fence_inv (s : jsstring) :
  startsWith fence s = true -> exists r, s = 96 :: 96 :: 96 :: r.
Proof.
  unfold fence.
  destruct s as [|a [|b [|c s]]]; cbn [startsWith str map list_ascii_of_string];
    rewrite ?andb_false_r; try discriminate.
  rewrite !andb_true_iff, !N.eqb_eq. intros (<- & <- & <- & _). eexists; reflexivity.
Qed.

Lemma stripFences_cases (s : jsstring) :
  (s = [] /\ stripFences 0 s = []) \/
  (startsWith fence s = true /\ exists n, (0 < n <= List.length s)%nat /\ stripFences 0 s = stripFences 0 (skipn n s)) \/
  (startsWith fence s = false /\ exists c t, s = c :: t /\ stripFences 0 s = c :: stripFences 0 t).
Proof.
  destruct s as [|c t]; [left; auto|right].
  cbn [stripFences].
  destruct (startsWith fenceJson (c :: t)) eqn:J.
  - left. split; [apply startsWith_fenceJson_fence; exact J|].
    exists 7%nat. rewrite stripFences_skip. split; [|reflexivity].
    unfold fenceJson in J.
    do 6 (destruct t as [|? t]; [simpl in J; rewrite ?andb_false_r in J; discriminate|]).
    simpl; lia.
  - destruct (startsWith fence (c :: t)) eqn:F.
    + left. split; [reflexivity|]. exists 3%nat. rewrite stripFences_skip.
      split; [|reflexivity].
      destruct (startsWith_fence_inv _ F) as (r & E). rewrite E; simpl; lia.
    + right. split; [reflexivity|]. exists c, t; auto.
Qed.

Lemma stripFences_head (s o : jsstring) :
  stripFences 0 s = 96 :: o -> exists r, s = 96 :: r.
Proof.
  destruct (stripFences_cases s) as [[-> E]|[[F _]|[_ (c & t & -> & E)]]].
  - discriminate.
  - destruct (startsWith_fence_inv _ F) as (r & ->). eexists; reflexivity.
  - rewrite E. intros H; inversion H; subst. eexists; reflexivity.
Qed.

Lemma stripFences_head2 (s o : jsstring) :
  stripFences 0 s = 96 :: 96 :: o -> exists r, s = 96 :: 96 :: r.
Proof.
  destruct (stripFences_cases s) as [[-> E]|[[F _]|[_ (c & t & -> & E)]]].
  - discriminate.
  - destruct (startsWith_fence_inv _ F) as (r & ->). eexists; reflexivity.
  - rewrite E. intros H; inversion H; subst.
    destruct (stripFences_head _ _ H2) as (r & ->). eexists; reflexivity.
Qed.

Lemma stripFences_no_fence_len (n : nat) (s : jsstring) :
  (List.length s <= n)%nat -> hasFence (stripFences 0 s) = false.
Proof.
  revert s; induction n as [|n IH]; intros s L.
  - destruct s; [reflexivity | simpl in L; lia].
  - destruct (stripFences_cases s) as [[-> E]|[[F (k & Hk & E)]|[F (c & t & -> & E)]]].
    + reflexivity.
    + rewrite E. apply IH.
      rewrite length_skipn. lia.
    + rewrite E. cbn [hasFence]. rewrite (IH t) by (simpl in L; lia).
      rewrite orb_false_r.
      destruct (startsWith fence (c :: stripFences 0 t)) eqn:G; [|reflexivity].
      destruct (startsWith_fence_inv _ G) as (r & H). inversion H; subst.
      destruct (stripFences_head2 _ _ H2) as (r' & ->).
      simpl in F. discriminate.
Qed.

Lemma stripFences_no_fence (s : jsstring) : hasFence (stripFences 0 s) = false.
Proof. apply (stripFences_no_fence_len (List.length s)); lia. Qed.

Lemma stripFences_id (s : jsstring) : hasFence s = false -> stripFences 0 s = s.
Proof.
  induction s as [|c t IH]; [reflexivity|].
  cbn [hasFence]. intros H. apply orb_false_iff in H as [F Ht].
  cbn [stripFences].
  destruct (startsWith fenceJson (c :: t)) eqn:J.
  - apply startsWith_fenceJson_fence in J. congruence.
  - rewrite F, (IH Ht). reflexivity.
Qed.

Lemma startsWith_app_l (p a b : jsstring) :
  startsWith p a = true -> startsWith p (a ++ b) = true.
Proof.
  revert a; induction p as [|x p IH]; intros a; [reflexivity|].
  destruct a as [|y a]; simpl; [discriminate|].
  rewrite !andb_true_iff. intros [E H]; split; auto.
Qed.

Lemma hasFence_app_r (a b : jsstring) : hasFence (a ++ b) = false -> hasFence b = false.
Proof.
  induction a as [|c a IH]; [auto|]. simpl app. cbn [hasFence].
  intros H. apply orb_false_iff in H as [_ H]. auto.
Qed.

Lemma hasFence_app_l (a b : jsstring) : hasFence (a ++ b) = false -> hasFence a = false.
Proof.
  induction a as [|c a IH]; [reflexivity|]. simpl app. cbn [hasFence].
  intros H. apply orb_false_iff in H as [F H]. rewrite (IH H), orb_false_r.
  destruct (startsWith fence (c :: a)) eqn:G; [|reflexivity].
  apply (startsWith_app_l _ _ b) in G. simpl app in G. congruence.
Qed.

Lemma trim_trim (s : jsstring) : trim (trim s) = trim s.
Proof.
  apply trim_id.
  - destruct (trim s) eqn:E; [exact I|]. exact (trim_head _ _ _ E).
  - destruct (rev (trim s)) as [|c r] eqn:E; [exact I|].
    apply (trim_last s (rev r) c).
    apply (f_equal (@rev N)) in E. rewrite rev_involutive in E. exact E.
Qed.

(** X2.  The cleaned text holds no fence marker, neither starts nor ends
    with white space, and cleaning it again changes nothing. *)
Theorem cleanJson_clean (text : jsstring) :
  let c := Typed.cleanJson text in
  hasFence c = false /\
  (forall x r, c = x :: r -> isWhiteSpace x = false) /\
  (forall r x, c = r ++ [x] -> isWhiteSpace x = false) /\
  Typed.cleanJson c = c.
Proof.
  cbv zeta. unfold Typed.cleanJson.
  assert (H : hasFence (trim (stripFences 0 text)) = false).
  { destruct (trim_split (stripFences 0 text)) as (pre & post & E & _).
    pose proof (stripFences_no_fence text) as F. rewrite E in F.
    apply hasFence_app_r, hasFence_app_l in F. exact F. }
  split; [exact H|]. split; [apply trim_head|]. split; [intros r x; apply trim_last|].
  rewrite (stripFences_id _ H). apply trim_trim.
Qed.

Lemma startsWith_fence_short (a : jsstring) (x : N) (b : jsstring) :
  startsWith fence (a ++ [x]) = false -> (x =? 96) = false ->
  startsWith fence (a ++ x :: b) = false.
Proof.
  intros H X. unfold fence in *.
  destruct a as [|p [|q [|r a]]]; cbn [app startsWith str map list_ascii_of_string] in *.
  - rewrite N.eqb_sym in X. change (N_of_ascii "`") with 96. rewrite X. reflexivity.
  - change (N_of_ascii "`") with 96. rewrite (N.eqb_sym 96 x), X, andb_false_r. reflexivity.
  - change (N_of_ascii "`") with 96. rewrite (N.eqb_sym 96 x), X, !andb_false_r. reflexivity.
  - exact H.
Qed.

Lemma stripFences_app (a : jsstring) (x : N) (b : jsstring) :
  hasFence (a ++ [x]) = false -> (x =? 96) = false ->
  stripFences 0 (a ++ x :: b) = a ++ x :: stripFences 0 b.
Proof.
  intros H X. induction a as [|c a IH].
  - cbn [app stripFences].
    assert (F : startsWith fence (x :: b) = false).
    { apply (startsWith_fence_short [] x b); [|exact X].
      cbn [app hasFence] in H. apply orb_false_iff in H as [H _]. exact H. }
    destruct (startsWith fenceJson (x :: b)) eqn:J.
    + apply startsWith_fenceJson_fence in J. congruence.
    + rewrite F. reflexivity.
  - simpl app in *. cbn [hasFence] in H. apply orb_false_iff in H as [F H].
    cbn [stripFences].
    assert (F' : startsWith fence (c :: a ++ x :: b) = false)
      by (apply (startsWith_fence_short (c :: a) x b); assumption).
    destruct (startsWith fenceJson (c :: a ++ x :: b)) eqn:J.
    + apply startsWith_fenceJson_fence in J. congruence.
    + rewrite F', (IH H). reflexivity.
Qed.

Lemma hasFence_snoc (t : jsstring) (x : N) :
  hasFence t = false -> (x =? 96) = false -> hasFence (t ++ [x]) = false.
Proof.
  intros H X. induction t as [|c t IH].
  - cbn [app hasFence]. unfold fence.
    cbn [startsWith str map list_ascii_of_string].
    destruct (_ =? x); reflexivity.
  - simpl app. cbn [hasFence] in *. apply orb_false_iff in H as [F H].
    rewrite (IH H), orb_false_r.
    unfold fence in *.
    destruct t as [|q [|r t]]; cbn [app startsWith str map list_ascii_of_string] in *;
      change (N_of_ascii "`") with 96; rewrite ?(N.eqb_sym 96 x), ?X, ?andb_false_r;
      try reflexivity.
    exact F.
Qed.

Lemma dropWhile_snoc {A} (p : A -> bool) (u : list A) (x : A) :
  p x = true ->
  dropWhile p (u ++ [x]) = if forallb p u then [] else dropWhile p u ++ [x].
Proof.
  intros X. induction u as [|c u IH]; simpl.
  - rewrite X; reflexivity.
  - destruct (p c); simpl; [exact IH | reflexivity].
Qed.

Lemma trim_snoc (u : jsstring) (x : N) : isWhiteSpace x = true -> trim (u ++ [x]) = trim u.
Proof.
  intros X. unfold trim, trimEnd, trimStart. rewrite (dropWhile_snoc _ _ _ X).
  destruct (forallb isWhiteSpace u) eqn:F.
  - apply dropWhile_nil_iff in F. rewrite F. reflexivity.
  - rewrite rev_app_distr. simpl. rewrite X. reflexivity.
Qed.

Lemma trim_cons (u : jsstring) (x : N) : isWhiteSpace x = true -> trim (x :: u) = trim u.
Proof. intros X. unfold trim, trimStart. simpl. rewrite X. reflexivity. Qed.

(** X3.  A text without fence markers that comes wrapped in a fence, with
    or without the json tag, each marker on a line of its own, is cleaned
    to the same text as when it comes bare: its trim. *)
Theorem fenced_text_is_unwrapped (t : jsstring) :
  hasFence t = false ->
  Typed.cleanJson (fenceJson ++ [10] ++ t ++ [10] ++ fence) = Typed.cleanJson t /\
  Typed.cleanJson (fence ++ [10] ++ t ++ [10] ++ fence) = Typed.cleanJson t /\
  Typed.cleanJson t = trim t.
Proof.
  intros H.
  assert (E : stripFences 0 (10 :: t ++ [10] ++ fence) = 10 :: t ++ [10]).
  { change (10 :: t ++ [10] ++ fence) with ((10 :: t) ++ 10 :: fence).
    rewrite stripFences_app.
    - reflexivity.
    - apply hasFence_snoc; [|reflexivity]. cbn [hasFence]. rewrite H. reflexivity.
    - reflexivity. }
  unfold Typed.cleanJson. rewrite (stripFences_id t H).
  repeat split.
  - change (stripFences 0 (fenceJson ++ [10] ++ t ++ [10] ++ fence))
      with (stripFences 0 (10 :: t ++ [10] ++ fence)).
    rewrite E. change (10 :: t ++ [10]) with ((10 :: t) ++ [10]).
    rewrite trim_snoc, trim_cons; reflexivity.
  - change (stripFences 0 (fence ++ [10] ++ t ++ [10] ++ fence))
      with (stripFences 0 (10 :: t ++ [10] ++ fence)).
    rewrite E. change (10 :: t ++ [10]) with ((10 :: t) ++ [10]).
    rewrite trim_snoc, trim_cons; reflexivity.
Qed.

Lemma fenced_text_witness :
  Typed.cleanJson Scenario.janeDoeText
  = Scenario.json "{'fullName':'Jane Doe','address':'','year':'2019','makeModel':'','vin':'1HGBH41JXMN109186'}".
Proof.
  destruct (fenced_text_is_unwrapped
              (Scenario.json "{'fullName':'Jane Doe','address':'','year':'2019','makeModel':'','vin':'1HGBH41JXMN109186'}")
              eq_refl) as (H1 & _ & H3).
  unfold Scenario.janeDoeText.
  change (str "```json") with fenceJson. change (str "```") with fence.
  rewrite H1, H3. reflexivity.
Defined.

(** ** The salvage *)
Lemma dropWhile_app_all {A} (p : A -> bool) (a b : list A) :
  forallb p a = true -> dropWhile p (a ++ b) = dropWhile p b.
Proof.
  induction a as [|c a IH]; simpl; [reflexivity|].
  intros H. apply andb_true_iff in H as [Hc Ha]. rewrite Hc. auto.
Qed.

Lemma matchBraces_wrapped (pre body post : jsstring) :
  forallb (isNot 123) pre = true -> forallb (isNot 125) post = true ->
  matchBraces (pre ++ (123 :: body ++ [125]) ++ post) = Some (123 :: body ++ [125]).
Proof.
  intros Hpre Hpost. unfold matchBraces.
  rewrite (dropWhile_app_all _ _ _ Hpre).
  change ((123 :: body ++ [125]) ++ post) with (123 :: (body ++ [125]) ++ post).
  rewrite (dropWhile_id (isNot 123) 123 _ eq_refl).
  rewrite rev_app_distr, rev_app_distr.
  change (rev [125] ++ rev body) with (125 :: rev body).
  rewrite dropWhile_app_all by (rewrite forallb_rev; exact Hpost).
  rewrite (dropWhile_id (isNot 125) 125 _ eq_refl).
  cbn [rev]. rewrite rev_involutive. reflexivity.
Qed.

(** X4.  An object text with prose around it, no opening brace in the
    prose before and no closing brace in the prose after, is what the
    brace pattern matches; so when the whole text does not parse, the
    salvage parses exactly the object text, and to an object. *)
Theorem salvage_recovers_wrapped_object (pre body post : jsstring) :
  forallb (isNot 123) pre = true -> forallb (isNot 125) post = true ->
  let m := 123 :: body ++ [125] in
  let text := pre ++ m ++ post in
  Typed.parseExtracted text =
    match JSON_parse text with
    | Some v => Some v
    | None => JSON_parse m
    end /\
  (forall v, JSON_parse m = Some v -> JSON_parse text = None ->
     Typed.parseExtracted text = Some v /\ isObject v = true).
Proof.
  intros Hpre Hpost m text. unfold Typed.parseExtracted.
  unfold text, m. rewrite (matchBraces_wrapped _ _ _ Hpre Hpost).
  split; [reflexivity|].
  intros v Pm Pt. rewrite Pt. split; [exact Pm|].
  exact (JSON_parse_brace _ _ Pm).
Qed.

Lemma salvage_witness :
  Typed.parseExtracted
    (str "Here is the result: " ++ Scenario.json "{'fullName':'Jane Doe'}" ++ str " Done.")
  = Some (JObject [(str "fullName", JString (str "Jane Doe"))]).
Proof.
  destruct (salvage_recovers_wrapped_object (str "Here is the result: ")
              (Scenario.json "'fullName':'Jane Doe'") (str " Done.") eq_refl eq_refl)
    as (_ & H).
  destruct (H (JObject [(str "fullName", JString (str "Jane Doe"))])) as (E & _).
  - vm_compute; reflexivity.
  - vm_compute; reflexivity.
  - exact E.
Defined.

(** ** The merges as operations *)

Lemma coalesce_idem (a : option JSON) (b : JSON) :
  Typed.coalesce a (Typed.coalesce a b) = Typed.coalesce a b.
Proof. destruct a as [[]|]; reflexivity. Qed.

Lemma orElse_idem (a : option JSON) (b : JSON) :
  Untyped.orElse a (Untyped.orElse a b) = Untyped.orElse a b.
Proof. unfold Untyped.orElse. destruct a as [v|]; [|reflexivity]. destruct (truthy v) eqn:T; rewrite ?T; reflexivity. Qed.

Lemma Typed_merge_idempotent (ex : JSON) (prev fd : FormDataState) :
  Typed.mergeExtracted ex prev = Some fd -> Typed.mergeExtracted ex fd = Some fd.
Proof.
  unfold Typed.mergeExtracted. destruct (isNull ex); [discriminate|].
  intros E; injection E as <-. cbn [fullName address year makeModel vin date].
  rewrite !coalesce_idem. reflexivity.
Qed.

(** X5.  Uploading the same file again, with the same answers from the
    reader and the service, leaves the component as the first upload left
    it, whether the extraction succeeded or failed; the untyped merge is
    idempotent in the same way. *)
Theorem repeated_upload_changes_nothing
    (w : ExtractionWorld) (f : File) (st st1 : Component) :
  Typed.isAllowedMime (type f) = true ->
  fst (Typed.handleFileUpload w (Some f) st) = Some st1 ->
  fst (Typed.handleFileUpload w (Some f) st1) = Some st1 /\
  (forall ex prev fd, Untyped.mergeExtracted ex prev = Some fd ->
                      Untyped.mergeExtracted ex fd = Some fd).
Proof.
  intros A H. split.
  - revert H. unfold Typed.handleFileUpload. rewrite A.
    cbn [negb]. unfold Typed.extractEnabled. cbn [fst].
    unfold Typed.extractInformation.
    destruct (Typed.extracted w) as [ex|].
    + cbn [formData setError setExtracting setExtractionComplete setFile].
      destruct (Typed.mergeExtracted ex (formData st)) as [fd|] eqn:M; [|discriminate].
      intros E; injection E as <-.
      cbn [formData setError setExtracting setExtractionComplete setFile setFormData].
      rewrite (Typed_merge_idempotent _ _ _ M). reflexivity.
    + intros E; injection E as <-. reflexivity.
  - intros ex prev fd. unfold Untyped.mergeExtracted.
    destruct (isNull ex); [discriminate|].
    intros E; injection E as <-. cbn [fullName address year makeModel vin date].
    rewrite !orElse_idem. reflexivity.
Qed.

Lemma repeated_upload_witness :
  exists st1,
    fst (Typed.handleFileUpload (Scenario.answers Scenario.janeDoeText)
           (Some Scenario.png) (Scenario.component Scenario.priorForm)) = Some st1 /\
    fst (Typed.handleFileUpload (Scenario.answers Scenario.janeDoeText)
           (Some Scenario.png) st1) = Some st1.
Proof.
  eexists. split; [vm_compute; reflexivity|].
  apply (repeated_upload_changes_nothing (Scenario.answers Scenario.janeDoeText)
           Scenario.png (Scenario.component Scenario.priorForm)).
  - reflexivity.
  - vm_compute; reflexivity.
Defined.

Lemma coalesce_orElse_iff (a : option JSON) (b : JSON) :
  Typed.coalesce a b = Untyped.orElse a b <->
  (Session.falsyValue a = true -> a = Some b).
Proof.
  unfold Untyped.orElse, Session.falsyValue.
  destruct a as [v|]; [|split; [discriminate | reflexivity]].
  destruct (truthy v) eqn:T.
  - rewrite andb_false_r. split; [discriminate|]. intros _.
    destruct v; try reflexivity. discriminate.
  - rewrite andb_true_r. destruct v; simpl; try (split; [intros ->; reflexivity | intros H; injection (H eq_refl); auto]).
    split; [discriminate | reflexivity].
Qed.

Lemma form_eq_iff (a b : FormDataState) :
  a = b <-> fullName a = fullName b /\ address a = address b /\ year a = year b /\
            makeModel a = makeModel b /\ vin a = vin b /\ date a = date b.
Proof.
  split; [intros ->; repeat split|].
  destruct a, b; simpl. intros (-> & -> & -> & -> & -> & ->). reflexivity.
Qed.

(** X6.  The two versions of the extraction merge give the same form
    exactly when every one of the five keys whose extracted value is
    falsy but not [null] (an empty string, zero, [false]) already holds
    that value: they differ only in that the typed merge lets such a value
    replace the entry. *)
Theorem versions_agree_iff (ex : JSON) (prev : FormDataState) :
  let keeps (key : string) (get : FormDataState -> JSON) :=
    Session.falsyValue (getProp ex (str key)) = true ->
    getProp ex (str key) = Some (get prev) in
  Typed.mergeExtracted ex prev = Untyped.mergeExtracted ex prev <->
  keeps "fullName"%string fullName /\ keeps "address"%string address /\
  keeps "year"%string year /\ keeps "makeModel"%string makeModel /\
  keeps "vin"%string vin.
Proof.
  cbv zeta. unfold Typed.mergeExtracted, Untyped.mergeExtracted.
  destruct (isNull ex) eqn:N.
  - destruct ex; try discriminate. simpl. split; [|reflexivity].
    intros _. repeat split; discriminate.
  - rewrite <- !coalesce_orElse_iff. split.
    + intros E. injection E. intros. repeat split; assumption.
    + intros (-> & -> & -> & -> & ->). reflexivity.
Qed.

Lemma blank_no_fence (s : jsstring) : forallb isWhiteSpace s = true -> hasFence s = false.
Proof.
  induction s as [|c s IH]; [reflexivity|]. simpl forallb. intros H.
  apply andb_true_iff in H as [Hc Hs]. cbn [hasFence]. rewrite (IH Hs), orb_false_r.
  unfold fence. cbn [startsWith str map list_ascii_of_string].
  destruct (N.eqb_spec (N_of_ascii "`") c) as [<-|]; [discriminate Hc | reflexivity].
Qed.

Lemma cleanJson_nonblank (text : jsstring) :
  Typed.cleanJson text <> [] -> trim text <> [].
Proof.
  intros H T. apply H. unfold Typed.cleanJson.
  pose proof T as B. apply trim_nil_iff in B.
  rewrite (stripFences_id _ (blank_no_fence _ B)). exact T.
Qed.

(** X7.  When the cleaned response text is the literal null, the parse
    succeeds, the updater reads a property of [null] and throws while
    rendering: neither version reports a failure or completes the
    extraction. *)
Theorem null_payload_is_not_caught (ToString : JSON -> jsstring) (w : ExtractionWorld) (f : File) (st : Component)
    (data : AnthropicResponse) :
  messages w = Fetched true (Some data) ->
  Typed.cleanJson (Typed.textContent data) = str "null" ->
  (forall b, Typed.fileToBase64 (reader w) = Some b ->
     Typed.extractInformation w f st = None /\
     (Typed.isAllowedMime (type f) = true ->
      Typed.handleFileUpload w (Some f) st = (None, [CallExtractInformation f]))) /\
  (forall r items, reader w = ReaderLoaded (Some r) -> content data = Some items ->
     Untyped.textContent ToString items = Typed.textContent data ->
     Untyped.extractInformation ToString w f st = None).
Proof.
  intros M C.
  assert (T : trim (Typed.textContent data) <> []).
  { apply cleanJson_nonblank. rewrite C. discriminate. }
  split.
  - intros b B.
    assert (E : Typed.extractInformation w f st = None).
    { unfold Typed.extractInformation.
      rewrite (Typed_extracted_of_text w b data B M T), C. reflexivity. }
    split; [exact E|]. intros A. unfold Typed.handleFileUpload. rewrite A.
    cbn [negb]. unfold Typed.extractEnabled.
    unfold Typed.extractInformation in *.
    rewrite (Typed_extracted_of_text w b data B M T), C. reflexivity.
  - intros r items R Ci U.
    unfold Untyped.extractInformation, Untyped.extracted. rewrite R, M, Ci, U.
    assert (NE : nonEmpty (Typed.textContent data) = true).
    { destruct (Typed.textContent data); [contradiction T; reflexivity | reflexivity]. }
    destruct items as [|item items].
    + unfold Typed.textContent in NE. rewrite Ci in NE. discriminate.
    + rewrite NE. unfold Typed.cleanJson in C. rewrite C. reflexivity.
Qed.

Lemma null_payload_witness :
  Typed.handleFileUpload (Scenario.answers (str "null")) (Some Scenario.png)
    (Scenario.component Scenario.priorForm)
  = (None, [CallExtractInformation Scenario.png]).
Proof.
  destruct (null_payload_is_not_caught (fun _ => [])
              (Scenario.answers (str "null")) Scenario.png
              (Scenario.component Scenario.priorForm) _ eq_refl eq_refl) as (H & _).
  destruct (H _ eq_refl) as (_ & H2). apply H2. reflexivity.
Defined.


(** X8.  An accepted upload that the component survives ends with the
    spinner off and in exactly one of two states: complete, with no error
    and the merged form, or failed, with the generic error, the flag off
    and the form untouched. *)
Theorem upload_ends_in_one_outcome (w : ExtractionWorld) (f : File) (st st' : Component) :
  Typed.isAllowedMime (type f) = true ->
  fst (Typed.handleFileUpload w (Some f) st) = Some st' ->
  extracting st' = false /\ file st' = Some f /\
  ((extractionComplete st' = true /\ error st' = [] /\
    exists ex, Typed.extracted w = Some ex /\
               Typed.mergeExtracted ex (formData st) = Some (formData st')) \/
   (extractionComplete st' = false /\ error st' = extractionFailedMessage /\
    Typed.extracted w = None /\ formData st' = formData st)).
Proof.
  intros A. unfold Typed.handleFileUpload. rewrite A.
  cbn [negb]. unfold Typed.extractEnabled. cbn [fst].
  unfold Typed.extractInformation.
  destruct (Typed.extracted w) as [ex|].
  - cbn [formData setError setExtracting setExtractionComplete setFile].
    destruct (Typed.mergeExtracted ex (formData st)) as [fd|] eqn:E; [|discriminate].
    intros H; injection H as <-. repeat split. left. repeat split.
    exists ex. split; [reflexivity|exact E].
  - intros H; injection H as <-. repeat split. right. repeat split.
Qed.

Lemma upload_outcome_witness :
  exists st',
    fst (Typed.handleFileUpload (Scenario.answers (str "I cannot read this file."))
           (Some Scenario.png) (Scenario.component Scenario.priorForm)) = Some st' /\
    extracting st' = false /\ extractionComplete st' = false /\
    error st' = extractionFailedMessage /\ formData st' = Scenario.priorForm.
Proof.
  eexists. split; [vm_compute; reflexivity|].
  destruct (upload_ends_in_one_outcome (Scenario.answers (str "I cannot read this file."))
              Scenario.png (Scenario.component Scenario.priorForm) _ eq_refl eq_refl)
    as (X & _ & [(C & _)|(C & E & _ & F)]).
  - discriminate C.
  - repeat split; assumption.
Defined.


(** X9.  A VIN lookup never touches the error, the file or the two flags,
    whatever comes back; a failed request, a status that is not a success
    and a body that does not parse leave the typed component exactly as it
    was; and the same lookup with the same answer a second time changes
    nothing more.  Both versions. *)
Theorem lookup_is_silent_and_idempotent (w : VinWorld) (v : jsstring) (st : Component) :
  let t := Typed.decodeVIN w v st in
  let u := Untyped.decodeVIN w v st in
  (error t = error st /\ file t = file st /\ extracting t = extracting st /\
   extractionComplete t = extractionComplete st) /\
  (error u = error st /\ file u = file st /\ extracting u = extracting st /\
   extractionComplete u = extractionComplete st) /\
  ((w = FetchFailed \/ (exists body, w = Fetched false body) \/ w = Fetched true None) ->
   t = st) /\
  Typed.decodeVIN w v t = t /\ Untyped.decodeVIN w v u = u.
Proof.
  cbv zeta. unfold Typed.decodeVIN, Untyped.decodeVIN.
  destruct w as [|ok [data|]].
  - repeat split.
  - assert (I : forall r fd, Typed.mergeVIN v r (Typed.mergeVIN v r fd) = Typed.mergeVIN v r fd).
    { intros r fd. unfold Typed.mergeVIN. cbn [fullName address year makeModel vin date].
      destruct (usable _), (nonEmpty _); reflexivity. }
    split; [destruct ok; repeat split|].
    split; [destruct (Results data); repeat split|].
    split.
    + intros [H|[(body & H)|H]]; try discriminate.
      injection H as -> _. reflexivity.
    + split.
      * destruct ok; [|reflexivity]. cbn [formData setFormData]. rewrite I. reflexivity.
      * destruct (Results data) as [r|]; [|reflexivity].
        cbn [formData setFormData]. rewrite !Untyped_spread_updates, I. reflexivity.
  - repeat split; destruct ok; reflexivity.
Qed.

Lemma replaceWhitespaceRuns_clean (b : bool) (s : jsstring) :
  forallb (fun c => negb (isWhiteSpace c)) (replaceWhitespaceRuns b s) = true.
Proof.
  revert b; induction s as [|c s IH]; intros b; [reflexivity|].
  cbn [replaceWhitespaceRuns]. destruct (isWhiteSpace c) eqn:W.
  - destruct b; [apply IH|]. cbn [forallb]. rewrite IH. reflexivity.
  - cbn [forallb]. rewrite W, IH. reflexivity.
Qed.

Lemma Some_eq {A} (a b : A) : Some a = Some b -> a = b.
Proof. congruence. Qed.

(** X10.  The name of the download never holds a white space character;
    it is the fixed prefix, a base and the extension, and in the typed
    component the base is never empty. *)
Theorem download_name_is_sanitised (fd : FormDataState) (name : jsstring) :
  (Typed.downloadName fd = Some name ->
   forallb (fun c => negb (isWhiteSpace c)) name = true /\
   exists base, base <> [] /\
                name = str "Authorization_Letter_" ++ base ++ str ".jpg") /\
  (Untyped.downloadName fd = Some name ->
   forallb (fun c => negb (isWhiteSpace c)) name = true /\
   exists base, name = str "Authorization_Letter_" ++ base ++ str ".jpg").
Proof.
  unfold Typed.downloadName, Untyped.downloadName.
  destruct (fullName fd) as [| | |s| |]; try (split; discriminate).
  split; intros H; apply Some_eq in H; subst name.
  - destruct (nonEmpty (replaceWhitespaceRuns false (trim s))) eqn:NE.
    + split.
      * rewrite !forallb_app, replaceWhitespaceRuns_clean. reflexivity.
      * eexists; split; [|reflexivity]. apply nonEmpty_true_iff; exact NE.
    + split; [reflexivity|].
      eexists; split; [|reflexivity]. discriminate.
  - split.
    + rewrite !forallb_app, replaceWhitespaceRuns_clean. reflexivity.
    + eexists; reflexivity.
Qed.

Lemma download_name_witness :
  forallb (fun c => negb (isWhiteSpace c)) (str "Authorization_Letter_Jane_Doe.jpg") = true /\
  Typed.downloadName (setField fullName_ (str "  Jane   Doe ") Scenario.priorForm)
  = Some (str "Authorization_Letter_Jane_Doe.jpg").
Proof.
  destruct (download_name_is_sanitised
              (setField fullName_ (str "  Jane   Doe ") Scenario.priorForm)
              (str "Authorization_Letter_Jane_Doe.jpg")) as (H & _).
  destruct (H eq_refl) as (W & _). split; [exact W | reflexivity].
Defined.


(** ** The initial date and the date line *)

Module ISODateFacts.
Import JSDate DateFacts ISODate.
Local Open Scope Z_scope.

Lemma DayWithinYear_bounds (d : Z) :
  0 <= DayWithinYear d < DaysInYear (YearFromDay d).
Proof.
  unfold DayWithinYear. pose proof (YearFromDay_spec d) as S.
  rewrite DayFromYear_succ in S. lia.
Qed.

Lemma civil_of_day (d : Z) :
  0 <= MonthFromDay d <= 11 /\
  1 <= DateFromDay d <= daysInMonth (YearFromDay d) (MonthFromDay d) /\
  MakeDay (YearFromDay d) (MonthFromDay d) (DateFromDay d) = d.
Proof.
  pose proof (DayWithinYear_bounds d) as B.
  unfold MakeDay, daysInMonth, DateFromDay, MonthFromDay, leapDay, DaysInYear in *.
  set (w := DayWithinYear d) in *.
  assert (E : d = DayFromYear (YearFromDay d) + w) by (unfold w, DayWithinYear; lia).
  destruct (isLeapYear (YearFromDay d));
    repeat match goal with
      | |- context [?a <? ?b] => destruct (Z.ltb_spec a b)
      end;
    cbn [daysBeforeMonth Z.add Pos.add Pos.succ]; simpl daysBeforeMonth; lia.
Qed.

Lemma digitChar_spec (k : Z) :
  0 <= k <= 9 ->
  isDigit (digitChar k) = true /\ digit (digitChar k) = Some k /\
  isNot 84 (digitChar k) = true.
Proof.
  intros H. unfold digitChar.
  assert (C : k = 0 \/ k = 1 \/ k = 2 \/ k = 3 \/ k = 4 \/ k = 5 \/ k = 6 \/ k = 7 \/ k = 8 \/ k = 9) by lia.
  repeat (destruct C as [C|C]; [subst k; repeat split; reflexivity|]).
  subst k; repeat split; reflexivity.
Qed.

Lemma padDigits2 (n : Z) : padDigits 2 n = [digitChar (n / 10 mod 10); digitChar (n mod 10)].
Proof. reflexivity. Qed.

Lemma padDigits4 (n : Z) :
  padDigits 4 n = [digitChar (n / 10 / 10 / 10 mod 10); digitChar (n / 10 / 10 mod 10);
                   digitChar (n / 10 mod 10); digitChar (n mod 10)].
Proof. reflexivity. Qed.

Lemma number2_digits (a b : Z) :
  0 <= a <= 9 -> 0 <= b <= 9 -> number2 (digitChar a) (digitChar b) = Some (10 * a + b).
Proof.
  intros Ha Hb. unfold number2.
  destruct (digitChar_spec a Ha) as (_ & -> & _).
  destruct (digitChar_spec b Hb) as (_ & -> & _). reflexivity.
Qed.

Lemma mod10 (n : Z) : 0 <= n mod 10 <= 9.
Proof. pose proof (Z.mod_pos_bound n 10); lia. Qed.

Lemma todayISO_text (now : Z) :
  0 <= YearFromDay (Day now) <= 9999 ->
  todayISO now =
    padDigits 4 (YearFromDay (Day now)) ++ [45%N]
    ++ padDigits 2 (MonthFromDay (Day now) + 1) ++ [45%N]
    ++ padDigits 2 (DateFromDay (Day now)).
Proof.
  intros Y. unfold todayISO, toISOString, isoYear.
  destruct (Z.leb_spec 0 (YearFromDay (Day now))); [|lia].
  destruct (Z.leb_spec (YearFromDay (Day now)) 9999); [|lia].
  cbn [andb]. cbv zeta.
  rewrite padDigits4, !padDigits2.
  cbn [app takeWhile].
  repeat match goal with
    | |- context [isNot 84 (digitChar ?k)] =>
        let H := fresh in
        destruct (digitChar_spec k (mod10 _)) as (_ & _ & H); rewrite H; clear H
    end.
  reflexivity.
Qed.

(** X11.  The initial date of the form, [todayISO], is a text the date
    line can read back: for every time with a UTC year from 0 to 9999 it
    has the fields of the UTC day, parses to midnight UTC of that day, and
    at or east of Greenwich the date line of the initial form names that
    day. *)
Theorem todayISO_round_trip (now : Z) :
  0 <= YearFromDay (Day now) <= 9999 ->
  let d := Day now in
  dateFields (todayISO now) = Some (YearFromDay d, MonthFromDay d + 1, DateFromDay d) /\
  parseDateOnly (todayISO now) = Some (msPerDay * d) /\
  (forall tza, 0 <= tza < msPerDay ->
     formattedDate tza (initialFormData now) =
     Some (nth (Z.to_nat (MonthFromDay d)) months [] ++ str " "
           ++ numberToString (DateFromDay d) ++ str ", "
           ++ numberToString (YearFromDay d))).
Proof.
  intros Y d. fold d in Y.
  destruct (civil_of_day d) as (Hm & Hd & Hmk).
  assert (F : dateFields (todayISO now) =
              Some (YearFromDay d, MonthFromDay d + 1, DateFromDay d)).
  { rewrite (todayISO_text now Y). fold d.
    rewrite padDigits4, !padDigits2. cbn [app]. unfold dateFields.
    assert (Hdm : daysInMonth (YearFromDay d) (MonthFromDay d) <= 31).
    { unfold daysInMonth.
      assert (C : MonthFromDay d = 0 \/ MonthFromDay d = 1 \/ MonthFromDay d = 2 \/ MonthFromDay d = 3 \/ MonthFromDay d = 4 \/ MonthFromDay d = 5 \/ MonthFromDay d = 6 \/ MonthFromDay d = 7 \/ MonthFromDay d = 8 \/ MonthFromDay d = 9 \/ MonthFromDay d = 10 \/ MonthFromDay d = 11) by lia.
      destruct (isLeapYear _);
      repeat (destruct C as [C|C]; [rewrite C; simpl; lia|]); rewrite C; simpl; lia. }
    set (y := YearFromDay d) in *. set (m := MonthFromDay d + 1). set (dt := DateFromDay d) in *.
    rewrite !number2_digits by (try apply mod10).
    assert (Ey : 100 * (10 * (y / 10 / 10 / 10 mod 10) + y / 10 / 10 mod 10) + (10 * (y / 10 mod 10) + y mod 10) = y)
      by (Z.div_mod_to_equations; lia).
    assert (Em : 10 * (m / 10 mod 10) + m mod 10 = m) by (subst m; Z.div_mod_to_equations; lia).
    assert (Ed : 10 * (dt / 10 mod 10) + dt mod 10 = dt) by (Z.div_mod_to_equations; lia).
    cbv zeta. rewrite Ey, Em, Ed.
    replace (m - 1) with (MonthFromDay d) by (subst m; lia).
    cbn [N.eqb Pos.eqb andb].
    destruct (Z.leb_spec 1 m); [|subst m; lia].
    destruct (Z.leb_spec m 12); [|subst m; lia].
    destruct (Z.leb_spec 1 dt); [|lia].
    destruct (Z.leb_spec dt (daysInMonth y (MonthFromDay d))); [|lia].
    reflexivity. }
  assert (P : parseDateOnly (todayISO now) = Some (msPerDay * d)).
  { unfold parseDateOnly. rewrite F.
    replace (MonthFromDay d + 1 - 1) with (MonthFromDay d) by lia.
    rewrite Hmk. reflexivity. }
  split; [exact F|]. split; [exact P|].
  intros tza T.
  rewrite (formattedDate_east tza (initialFormData now) _ _ _ F T).
  replace (MonthFromDay d + 1 - 1) with (MonthFromDay d) by lia. reflexivity.
Qed.

Lemma todayISO_witness :
  todayISO 1709596800123 = str "2024-03-05" /\
  parseDateOnly (todayISO 1709596800123) = Some 1709596800000.
Proof.
  destruct (todayISO_round_trip 1709596800123) as (_ & P & _).
  - vm_compute. split; discriminate.
  - split; [reflexivity | exact P].
Defined.


Lemma daysInMonth_bounds (y m : Z) : 0 <= m <= 11 -> 28 <= daysInMonth y m <= 31.
Proof.
  intros H. unfold daysInMonth.
  destruct (isLeapYear y); month_cases m; simpl; lia.
Qed.

Lemma MakeDay_shift (y m d k : Z) : MakeDay y m (d + k) = MakeDay y m d + k.
Proof. unfold MakeDay; lia. Qed.

Lemma previous_day_differs (y m d : Z) :
  0 <= m <= 11 -> 1 <= d <= daysInMonth y m ->
  DateFromDay (MakeDay y m d - 1) <> d.
Proof.
  intros Hm Hd.
  destruct (Z.eq_dec d 1) as [->|N].
  - intros E.
    destruct (civil_of_day (MakeDay y m 1 - 1)) as (Hm' & Hd' & Hmk).
    rewrite E in Hd', Hmk.
    remember (YearFromDay (MakeDay y m 1 - 1)) as y' eqn:Ey'.
    remember (MonthFromDay (MakeDay y m 1 - 1)) as m' eqn:Em'.
    clear Ey' Em' E.
    pose proof (daysInMonth_bounds y' m' Hm') as B.
    assert (E2 : MakeDay y m 1 = MakeDay y' m' 2).
    { change 2 with (1 + 1). rewrite MakeDay_shift. lia. }
    destruct (MakeDay_month_date y m 1 Hm Hd) as [_ D1].
    destruct (MakeDay_month_date y' m' 2 Hm' ltac:(lia)) as [_ D2].
    rewrite E2 in D1. rewrite D1 in D2. discriminate.
  - assert (E : MakeDay y m d - 1 = MakeDay y m (d - 1)).
    { replace d with ((d - 1) + 1) at 1 by lia. rewrite MakeDay_shift. lia. }
    rewrite E.
    destruct (MakeDay_month_date y m (d - 1) Hm ltac:(lia)) as [_ ->]. lia.
Qed.

Lemma date_line_west (tza : Z) (fd : FormDataState) (y m d : Z) :
  dateFields (date fd) = Some (y, m, d) ->
  - msPerDay <= tza < 0 ->
  exists y' m' d',
    formattedDate tza fd =
      Some (nth (Z.to_nat m') months [] ++ str " " ++ numberToString d'
            ++ str ", " ++ numberToString y') /\
    0 <= m' <= 11 /\ 1 <= d' <= daysInMonth y' m' /\
    MakeDay y' m' d' + 1 = MakeDay y (m - 1) d /\
    d' <> d.
Proof.
  intros F T.
  destruct (dateFields_valid _ _ _ _ F) as [Hm Hd].
  set (D := MakeDay y (m - 1) d).
  destruct (civil_of_day (D - 1)) as (Hm' & Hd' & Hmk).
  exists (YearFromDay (D - 1)), (MonthFromDay (D - 1)), (DateFromDay (D - 1)).
  split; [|split; [exact Hm'|split; [exact Hd'|split; [lia|]]]].
  - unfold formattedDate, parseDateOnly. rewrite F.
    unfold getMonth, getDate, getFullYear. rewrite (Day_west _ _ T). fold D.
    do 2 f_equal. apply nth_indep. change (List.length months) with 12%nat. lia.
  - apply previous_day_differs; [lia | exact Hd].
Qed.

(** X12.  For every stored date: at or east of Greenwich the date line
    names the stored day, by the table of the twelve months; west of
    Greenwich it names the calendar day before it, whose day number is
    never the stored one. *)
Theorem date_line_by_time_zone (tza : Z) (fd : FormDataState) (y m d : Z) :
  dateFields (date fd) = Some (y, m, d) ->
  (0 <= tza < msPerDay ->
   formattedDate tza fd =
     Some (nth (Z.to_nat (m - 1)) months [] ++ str " " ++ numberToString d
           ++ str ", " ++ numberToString y)) /\
  (- msPerDay <= tza < 0 ->
   exists y' m' d',
     formattedDate tza fd =
       Some (nth (Z.to_nat m') months [] ++ str " " ++ numberToString d'
             ++ str ", " ++ numberToString y') /\
     0 <= m' <= 11 /\ 1 <= d' <= daysInMonth y' m' /\
     MakeDay y' m' d' + 1 = MakeDay y (m - 1) d /\
     d' <> d).
Proof.
  intros F. split; intros T.
  - exact (formattedDate_east tza fd y m d F T).
  - exact (date_line_west tza fd y m d F T).
Qed.

Lemma date_line_witness :
  formattedDate Scenario.halifax
    (setField date_ (str "2024-03-01") Scenario.priorForm)
  = Some (str "February 29, 2024").
Proof.
  destruct (date_line_by_time_zone Scenario.halifax
              (setField date_ (str "2024-03-01") Scenario.priorForm) 2024 3 1 eq_refl)
    as (_ & H).
  destruct H as (y' & m' & d' & E & _).
  - unfold Scenario.halifax, msPerDay. lia.
  - reflexivity.
Defined.

End ISODateFacts.

(** ** Runs of events *)

Module SessionFacts.
Import Session.

Lemma coalesce_string (a : option JSON) (b : JSON) :
  stringOrAbsent a = true -> isString b = true -> isString (Typed.coalesce a b) = true.
Proof. destruct a as [[]|]; simpl; auto; discriminate. Qed.

Lemma stringForm_iff (fd : FormDataState) :
  stringForm fd = true <->
  isString (fullName fd) = true /\ isString (address fd) = true /\
  isString (year fd) = true /\ isString (makeModel fd) = true /\
  isString (vin fd) = true.
Proof. unfold stringForm. rewrite !andb_true_iff. tauto. Qed.

Lemma merge_keeps_strings (ex : JSON) (prev : FormDataState) :
  wellTypedPayload ex = true -> stringForm prev = true ->
  exists fd, Typed.mergeExtracted ex prev = Some fd /\ stringForm fd = true.
Proof.
  unfold wellTypedPayload, Typed.mergeExtracted, formKeys.
  rewrite andb_true_iff. intros [N K] S.
  apply negb_true_iff in N. rewrite N.
  cbn [map forallb] in K. rewrite !andb_true_iff in K.
  destruct K as (K1 & K2 & K3 & K4 & K5 & _).
  apply stringForm_iff in S. destruct S as (S1 & S2 & S3 & S4 & S5).
  eexists; split; [reflexivity|]. apply stringForm_iff.
  cbn [fullName address year makeModel vin].
  repeat split; apply coalesce_string; assumption.
Qed.

Lemma mergeVIN_keeps_strings (v : jsstring) (r : list VinItem) (fd : FormDataState) :
  stringForm fd = true -> stringForm (Typed.mergeVIN v r fd) = true.
Proof.
  rewrite !stringForm_iff. unfold Typed.mergeVIN.
  cbn [fullName address year makeModel vin].
  intros (S1 & S2 & S3 & S4 & S5).
  repeat split; auto; [destruct (usable _) | destruct (nonEmpty _)]; auto.
Qed.

Lemma setField_keeps_strings (field : Field) (value : jsstring) (fd : FormDataState) :
  stringForm fd = true -> stringForm (setField field value fd) = true.
Proof.
  rewrite !stringForm_iff. intros (S1 & S2 & S3 & S4 & S5).
  destruct field; cbn; repeat split; auto.
Qed.

Lemma decodeVIN_keeps_strings (w : VinWorld) (v : jsstring) (st : Component) :
  stringForm (formData st) = true ->
  stringForm (formData (Typed.decodeVIN w v st)) = true.
Proof.
  intros S. unfold Typed.decodeVIN.
  destruct w as [|[|] [data|]]; auto.
  cbn [formData setFormData]. apply mergeVIN_keeps_strings; exact S.
Qed.

Lemma rendered_strings (st : Component) :
  stringForm (formData st) = true -> rendered st = Some st.
Proof.
  intros S. apply stringForm_iff in S. destruct S as (S1 & _).
  unfold rendered, Typed.exportDisabled.
  destruct (fullName (formData st)); try discriminate. reflexivity.
Qed.

Lemma clickExport_formData (w : CanvasOutcome) (st : Component) :
  formData (fst (Typed.clickExport w st)) = formData st /\
  extracting (fst (Typed.clickExport w st)) = extracting st.
Proof.
  unfold Typed.clickExport, Typed.generatePDF.
  destruct (Typed.exportDisabled (formData st)) as [[|]|]; try (split; reflexivity).
  destruct w; split; reflexivity.
Qed.

Lemma step_keeps_strings (e : Event) (st : Component) :
  wellTypedEvent e = true -> stringForm (formData st) = true ->
  exists st', step e st = Some st' /\ stringForm (formData st') = true /\
              (extracting st = false -> extracting st' = false).
Proof.
  intros W S. unfold step. destruct e as [w [f|]|w field value|w]; cbn [handle].
  - unfold Typed.handleFileUpload.
    destruct (negb (Typed.isAllowedMime (type f))).
    + cbn [fst]. eexists. split; [apply rendered_strings; exact S|]. split; auto.
    + unfold Typed.extractEnabled. cbn [fst]. unfold Typed.extractInformation.
      cbn [wellTypedEvent] in W.
      destruct (Typed.extracted w) as [ex|].
      * cbn [formData setError setExtracting setExtractionComplete setFile].
        destruct (merge_keeps_strings ex (formData st) W S) as (fd & -> & Sfd).
        eexists. split; [apply rendered_strings; exact Sfd|]. split; auto.
      * eexists. split; [apply rendered_strings; exact S|]. split; auto.
  - cbn [fst]. eexists. split; [apply rendered_strings; exact S|]. split; auto.
  - assert (S' : stringForm (formData (fst (Typed.handleInputChange w field value st))) = true).
    { unfold Typed.handleInputChange.
      destruct field; cbn [fst formData setFormData];
        try (apply setField_keeps_strings; exact S).
      destruct (List.length value =? 17)%nat; cbn [fst].
      - apply decodeVIN_keeps_strings. cbn [formData setFormData].
        apply setField_keeps_strings; exact S.
      - cbn [formData setFormData]. apply setField_keeps_strings; exact S. }
    eexists. split; [apply rendered_strings; exact S'|]. split; [exact S'|].
    unfold Typed.handleInputChange.
    destruct field; cbn [fst extracting setFormData]; auto.
    destruct (List.length value =? 17)%nat; cbn [fst]; auto.
    unfold Typed.decodeVIN. destruct w as [|[|] [data|]]; auto.
  - destruct (clickExport_formData w st) as [F X].
    eexists. split; [apply rendered_strings; rewrite F; exact S|].
    rewrite F, X. auto.
Qed.

(** X13.  From a form whose five text fields are strings, as the initial
    one is, no run of uploads, edits and exports in which every extracted
    payload is as its type declares (not [null], each key absent, [null]
    or a string) makes the component throw; the fields stay strings and
    the spinner, if off, is off at the end. *)
Theorem well_typed_session_never_throws (es : list Event) (st : Component) :
  forallb wellTypedEvent es = true ->
  stringForm (formData st) = true ->
  exists st', run es st = Some st' /\ stringForm (formData st') = true /\
              Typed.exportDisabled (formData st') <> None /\
              (extracting st = false -> extracting st' = false).
Proof.
  revert st; induction es as [|e es IH]; intros st W S.
  - exists st. repeat split; auto.
    pose proof (rendered_strings st S) as R. unfold rendered in R.
    destruct (Typed.exportDisabled (formData st)); discriminate.
  - cbn [forallb] in W. apply andb_true_iff in W as [We Wes].
    destruct (step_keeps_strings e st We S) as (st1 & E & S1 & X1).
    destruct (IH st1 Wes S1) as (st' & R & S' & D & X').
    exists st'. cbn [run]. rewrite E. repeat split; auto.
Qed.

Lemma well_typed_session_witness :
  exists st', run Scenario.sampleRun (initialComponent 1709596800123) = Some st' /\
              stringForm (formData st') = true /\ extracting st' = false.
Proof.
  destruct (well_typed_session_never_throws Scenario.sampleRun
              (initialComponent 1709596800123)) as (st' & R & S & _ & X).
  - vm_compute; reflexivity.
  - reflexivity.
  - exists st'. repeat split; [exact R | exact S | apply X; reflexivity].
Defined.


Lemma rendered_inv (st st' : Component) : rendered st = Some st' -> st' = st.
Proof. unfold rendered. destruct (Typed.exportDisabled _); congruence. Qed.

Lemma merge_date (ex : JSON) (prev fd : FormDataState) :
  Typed.mergeExtracted ex prev = Some fd -> date fd = date prev.
Proof.
  unfold Typed.mergeExtracted. destruct (isNull ex); [discriminate|].
  intros E; injection E as <-. reflexivity.
Qed.

Lemma decodeVIN_date (w : VinWorld) (v : jsstring) (st : Component) :
  date (formData (Typed.decodeVIN w v st)) = date (formData st).
Proof. unfold Typed.decodeVIN. destruct w as [|[|] [data|]]; reflexivity. Qed.

Lemma step_date (e : Event) (st st' : Component) :
  step e st = Some st' ->
  date (formData st') = dateAfter [e] (date (formData st)).
Proof.
  unfold step. destruct (handle e st) as [st1|] eqn:H; [|discriminate].
  intros R. apply rendered_inv in R. subst st'.
  destruct e as [w [f|]|w field value|w]; cbn [handle dateAfter] in *.
  - unfold Typed.handleFileUpload in H.
    destruct (negb (Typed.isAllowedMime (type f))); cbn [fst] in H.
    + injection H as <-. reflexivity.
    + unfold Typed.extractEnabled in H. cbn [fst] in H.
      unfold Typed.extractInformation in H.
      destruct (Typed.extracted w) as [ex|].
      * cbn [formData setError setExtracting setExtractionComplete setFile] in H.
        destruct (Typed.mergeExtracted ex (formData st)) as [fd|] eqn:M; [|discriminate].
        injection H as <-. cbn. exact (merge_date _ _ _ M).
      * injection H as <-. reflexivity.
  - injection H as <-. reflexivity.
  - injection H as <-. unfold Typed.handleInputChange.
    destruct field; cbn [fst formData setFormData]; try reflexivity.
    destruct (List.length value =? 17)%nat; cbn [fst]; [|reflexivity].
    rewrite decodeVIN_date. reflexivity.
  - injection H as <-. destruct (clickExport_formData w st) as [-> _]. reflexivity.
Qed.

Lemma dateAfter_cons (e : Event) (es : list Event) (d : jsstring) :
  dateAfter (e :: es) d = dateAfter es (dateAfter [e] d).
Proof. destruct e as [| ? [] ? |]; reflexivity. Qed.

(** X14.  Over any run of events the component survives, the date the
    form holds is the value of the last edit of the date field, or the
    date it started with: no upload, lookup or export changes it. *)
Theorem only_date_edits_change_the_date (es : list Event) (st st' : Component) :
  run es st = Some st' ->
  date (formData st') = dateAfter es (date (formData st)).
Proof.
  revert st; induction es as [|e es IH]; intros st R.
  - injection R as <-. reflexivity.
  - cbn [run] in R. destruct (step e st) as [st1|] eqn:E; [|discriminate].
    rewrite dateAfter_cons, <- (step_date e st st1 E). apply IH; exact R.
Qed.

Lemma date_edits_witness :
  exists st', run Scenario.sampleRun (initialComponent 1709596800123) = Some st' /\
              date (formData st') = str "2024-03-01".
Proof.
  eexists. split; [vm_compute; reflexivity|].
  rewrite (only_date_edits_change_the_date Scenario.sampleRun
             (initialComponent 1709596800123) _ ltac:(vm_compute; reflexivity)).
  reflexivity.
Defined.


(** X15.  An extracted object whose fullName is neither a string nor
    [null] is merged as it is: the upload completes without an error, the
    form holds the value, and the export button, which trims the full
    name, throws at the next render. *)
Theorem ill_typed_full_name_breaks_rendering (w : ExtractionWorld) (f : File) (st : Component)
    (members : list (jsstring * JSON)) (v : JSON) :
  Typed.isAllowedMime (type f) = true ->
  Typed.extracted w = Some (JObject members) ->
  lookupLast (str "fullName") members = Some v ->
  isNull v = false -> isString v = false ->
  (exists st', fst (Typed.handleFileUpload w (Some f) st) = Some st' /\
               fullName (formData st') = v /\
               extractionComplete st' = true /\ error st' = [] /\
               Typed.exportDisabled (formData st') = None /\
               Typed.downloadName (formData st') = None) /\
  step (Upload w (Some f)) st = None.
Proof.
  intros A E L N S.
  assert (H : exists st', fst (Typed.handleFileUpload w (Some f) st) = Some st' /\
               fullName (formData st') = v /\
               extractionComplete st' = true /\ error st' = [] /\
               Typed.exportDisabled (formData st') = None /\
               Typed.downloadName (formData st') = None).
  { unfold Typed.handleFileUpload. rewrite A. cbn [negb]. unfold Typed.extractEnabled.
    cbn [fst]. unfold Typed.extractInformation. rewrite E.
    unfold Typed.mergeExtracted. cbn [isNull getProp]. rewrite L.
    eexists; split; [reflexivity|].
    unfold Typed.exportDisabled, Typed.downloadName.
    cbn [formData setFormData setExtracting setExtractionComplete setError setFile fullName
         extractionComplete error Typed.coalesce].
    destruct v; try discriminate; repeat split. }
  split; [exact H|].
  destruct H as (st' & H & _ & _ & _ & D & _).
  unfold step. cbn [handle]. rewrite H. unfold rendered. rewrite D. reflexivity.
Qed.

Lemma ill_typed_full_name_witness :
  step (Upload (Scenario.answers (Scenario.json "{'fullName':{'first':'Jane','last':'Doe'}}"))
          (Some Scenario.png))
    (Scenario.component Scenario.priorForm) = None.
Proof.
  destruct (ill_typed_full_name_breaks_rendering
              (Scenario.answers (Scenario.json "{'fullName':{'first':'Jane','last':'Doe'}}"))
              Scenario.png (Scenario.component Scenario.priorForm)
              [(str "fullName",
                JObject [(str "first", JString (str "Jane"));
                         (str "last", JString (str "Doe"))])]
              (JObject [(str "first", JString (str "Jane"));
                        (str "last", JString (str "Doe"))])
              eq_refl eq_refl eq_refl eq_refl eq_refl)
    as (_ & H).
  exact H.
Defined.

End SessionFacts.
